(** * RegimeEye API: a shallow embedding of [main.py] and its contract

    The handlers of [main.py] are translated one by one.  Python values
    are modelled as the interpreter has them: [str] is a sequence of
    Unicode code points, [int] is [Z], [float] is an IEEE 754 binary64
    number (Rocq's primitive floats), a [dict] is an association list in
    insertion order, and a call that may raise returns an [outcome]. *)

From Stdlib Require Import ZArith List String Ascii Bool Lia Floats.
From Stdlib Require Import DecimalString.
Import ListNotations.

Set Warnings "-inexact-float".

Local Open Scope Z_scope.

(** ** Python prelude *)

Module Py.

(** A [str]: the sequence of its code points. *)
Definition str := list N.

(** An ASCII literal as a [str]. *)
Definition lit (s : string) : str :=
  map N_of_ascii (list_ascii_of_string s).

Definition str_eqb (a b : str) : bool :=
  if list_eq_dec N.eq_dec a b then true else false.

(** [s[:n]] *)
Definition slice_to (n : nat) (s : str) : str := firstn n s.

(** [len(s)] *)
Definition len {A} (l : list A) : Z := Z.of_nat (List.length l).

(** [str(i)] for an [int]. *)
Definition str_of_int (i : Z) : str :=
  lit (NilZero.string_of_int (Z.to_int i)).

(** [f"{i:02d}"]: sign-aware zero padding to width 2. *)
Definition format_02d (i : Z) : str :=
  if (0 <=? i) && (i <? 10) then lit "0" ++ str_of_int i
  else str_of_int i.

(** A [dict] with [str] keys, in insertion order. *)
Definition dict (V : Type) := list (str * V).

Definition values {V} (d : dict V) : list V := map snd d.
Definition keys {V} (d : dict V) : list str := map fst d.

Fixpoint dict_get {V} (d : dict V) (k : str) : option V :=
  match d with
  | [] => None
  | (k', v) :: d' => if str_eqb k' k then Some v else dict_get d' k
  end.

(** [d[k] = v]: an existing key keeps its position. *)
Fixpoint dict_set {V} (d : dict V) (k : str) (v : V) : dict V :=
  match d with
  | [] => [(k, v)]
  | (k', v') :: d' =>
      if str_eqb k' k then (k', v) :: d' else (k', v') :: dict_set d' k v
  end.

(** [float(i)] for an [int] below [2^53] in magnitude, where the
    conversion is exact. *)
Definition float_of_int (i : Z) : float :=
  if i <? 0 then PrimFloat.opp (PrimFloat.of_uint63 (Uint63.of_Z (- i)))
  else PrimFloat.of_uint63 (Uint63.of_Z i).

(** [sum(xs)] over floats: the accumulator starts at the [int] 0 and
    the items are added from left to right. *)
Definition sum (xs : list float) : float :=
  fold_left PrimFloat.add xs (float_of_int 0).

(** From CPython 3.12 on, [sum] also carries the rounding error of each
    addition (Neumaier's compensation) and adds it at the end when it
    is finite and not zero. *)
Definition sum_step (st : float * float) (x : float) : float * float :=
  let '(f_result, c) := st in
  let t := (f_result + x)%float in
  if PrimFloat.leb (PrimFloat.abs x) (PrimFloat.abs f_result)
  then (t, (c + ((f_result - t) + x))%float)
  else (t, (c + ((x - t) + f_result))%float).

Definition sum_compensated (xs : list float) : float :=
  let '(f_result, c) := fold_left sum_step xs (float_of_int 0, 0%float) in
  if (negb (PrimFloat.is_zero c) && PrimFloat.is_finite c)%bool
  then (f_result + c)%float
  else f_result.

(** The two-argument builtins [max] and [min] return their first
    argument unless the second is strictly beyond it. *)
Definition max_float (a b : float) : float :=
  if PrimFloat.ltb a b then b else a.

Definition max_int (a b : Z) : Z := if a <? b then b else a.
Definition min_int (a b : Z) : Z := if b <? a then b else a.

(** [range(n)] *)
Definition range (n : nat) : list Z := map Z.of_nat (seq 0 n).

(** An instance of class [Exception], the class named by every
    [except] clause of [main.py]; [exn_str] is [str(e)]. *)
Record exn := Exn { exn_type : str; exn_str : str }.

(** The result of running a call: it returns or it raises. *)
Inductive outcome (A : Type) : Type :=
| Ret (a : A)
| Raise (e : exn).
Arguments Ret {A} a.
Arguments Raise {A} e.

Definition bind {A B} (m : outcome A) (k : A -> outcome B) : outcome B :=
  match m with
  | Ret a => k a
  | Raise e => Raise e
  end.

(** [try: body / except Exception as e: handler(e)] *)
Definition try_except {A} (body : outcome A) (handler : exn -> outcome A)
  : outcome A :=
  match body with
  | Ret a => Ret a
  | Raise e => handler e
  end.

Definition returns {A} (m : outcome A) : Prop := exists a, m = Ret a.

(** Statements that mutate an object of type [S] and may raise: the
    mutations made before a raise stay visible to the handler and to the
    code after the [try]. *)
Definition action (S : Type) := S -> S * outcome unit.

Definition modify {S} (f : S -> S) : action S := fun s => (f s, Ret tt).

Definition then_ {S} (a b : action S) : action S :=
  fun s =>
    match a s with
    | (s', Ret _) => b s'
    | (s', Raise e) => (s', Raise e)
    end.

(** Evaluate a call, then continue with its value. *)
Definition call {S A} (m : outcome A) (k : A -> action S) : action S :=
  fun s =>
    match m with
    | Ret a => k a s
    | Raise e => (s, Raise e)
    end.

Definition try_except_action {S} (body : action S) (handler : exn -> action S)
  : action S :=
  fun s =>
    match body s with
    | (s', Ret _) => (s', Ret tt)
    | (s', Raise e) => handler e s'
    end.

End Py.

Import Py.

Declare Scope py_scope.
Delimit Scope py_scope with py.
Notation "x <- m ;; k" := (Py.bind m (fun x => k))
  (at level 61, m at next level, right associativity) : py_scope.
Notation "a ;;; b" := (Py.then_ a b)
  (at level 62, right associativity) : py_scope.

(** ** Response models of [main.py] *)

Record RegimeNow := mkRegimeNow {
  timestamp : str;
  regime : str;
  probabilities : dict float;
  rn_conviction : Z;
  rn_weights : dict float;
  benchmark_weights : dict float
}.

Record BacktestPoint := mkBacktestPoint {
  date : str;
  taa : float;
  saa : float;
  sixty_forty : float
}.

Record BacktestResponse := mkBacktestResponse {
  equity_curve : list BacktestPoint;
  weights_over_time : list (dict float)
}.

Record ScenarioRequest := mkScenarioRequest {
  name : str;
  assumptions : dict float
}.

(** The document handed to [create_document] and the body returned by
    [stress_test]. *)
Record ScenarioDocument := mkScenarioDocument {
  doc_name : str;
  doc_assumptions : dict float
}.

Record StressTestResult := mkStressTestResult {
  scenario_id : option str;
  conviction : Z;
  weights : dict float
}.

(** ** [GET /api/regime-now] *)

Section RegimeNowHandler.

(** [date.today().isoformat()] at the time of the call. *)
Variable today_iso : str.

Definition regime_now : RegimeNow :=
  mkRegimeNow
    today_iso
    (lit "Slowdown")
    [ (lit "Expansion", 0.22%float);
      (lit "Slowdown", 0.53%float);
      (lit "Contraction", 0.18%float);
      (lit "Recovery", 0.07%float) ]
    84
    [ (lit "SPY", 0.35%float); (lit "IEF", 0.35%float);
      (lit "GLD", 0.15%float); (lit "DBC", 0.10%float);
      (lit "SHY", 0.05%float) ]
    [ (lit "SPY", 0.60%float); (lit "IEF", 0.40%float) ].

End RegimeNowHandler.

(** ** [POST /api/stress-test] *)

Section StressTestHandler.

(** The persistence collaborator of module [database]:
    [create_document(collection_name, document)] returns the new
    identifier or raises. *)
Variable create_document : str -> ScenarioDocument -> outcome str.

(** [shift] when the builtin [sum] adds from left to right (CPython up
    to 3.11). *)
Definition stress_shift (req : ScenarioRequest) : float :=
  match assumptions req with
  | [] => 0.0%float
  | _ :: _ => Py.sum (values (assumptions req))
  end.

(** [shift] when the builtin [sum] compensates the rounding errors
    (CPython 3.12 and later). *)
Definition stress_shift_compensated (req : ScenarioRequest) : float :=
  match assumptions req with
  | [] => 0.0%float
  | _ :: _ => Py.sum_compensated (values (assumptions req))
  end.

Definition stress_conviction (shift : float) : Z :=
  max_int 0 (min_int 100 (70 + 5 * (if PrimFloat.ltb shift 0 then 1 else -1))).

Definition stress_weights : dict float :=
  [ (lit "SPY", 0.30%float); (lit "IEF", 0.45%float);
    (lit "GLD", 0.15%float); (lit "DBC", 0.07%float);
    (lit "SHY", 0.03%float) ].

Definition stress_test (req : ScenarioRequest) : outcome StressTestResult :=
  (sid <- try_except
            (id <- create_document (lit "scenario")
                     (mkScenarioDocument (name req) (assumptions req)) ;;
             Ret (Some id))
            (fun _ => Ret None) ;;
   let shift := stress_shift req in
   let conviction := stress_conviction shift in
   let weights := stress_weights in
   Ret (mkStressTestResult sid conviction weights))%py.

(** The same handler run by an interpreter whose [sum] compensates. *)
Definition stress_test_compensated (req : ScenarioRequest)
  : outcome StressTestResult :=
  (sid <- try_except
            (id <- create_document (lit "scenario")
                     (mkScenarioDocument (name req) (assumptions req)) ;;
             Ret (Some id))
            (fun _ => Ret None) ;;
   let shift := stress_shift_compensated req in
   let conviction := stress_conviction shift in
   let weights := stress_weights in
   Ret (mkStressTestResult sid conviction weights))%py.

End StressTestHandler.

(** ** [GET /api/backtest] *)

Section BacktestHandler.

(** [date.today().isoformat()] at the time of the call. *)
Variable today_iso : str.

(** The functions of the platform's math library behind [math.sin],
    [math.cos] and the float operator [**]. *)
Variable sin : float -> float.
Variable cos : float -> float.
Variable pow : float -> float -> float.

(** [math.pi] *)
Definition pi : float := 3.141592653589793%float.

Definition backtest_point (n i : Z) : BacktestPoint :=
  let t := (float_of_int i / float_of_int n)%float in
  let taa := (100 * pow (1 + 0.08) (t * 20) * (1 + 0.02 * sin (8 * t)))%float in
  let saa := (100 * pow (1 + 0.05) (t * 20))%float in
  let sixty := (100 * pow (1 + 0.06) (t * 20))%float in
  mkBacktestPoint
    (str_of_int (2005 + i / 12) ++ lit "-" ++ format_02d (i mod 12 + 1)
       ++ lit "-01")
    taa saa sixty.

Definition backtest_weights (n i : Z) : dict float :=
  let t := (float_of_int i / float_of_int n)%float in
  let w_spy := (0.55 - 0.25 * sin (2 * pi * t))%float in
  let w_ief := (0.35 + 0.20 * sin (2 * pi * t))%float in
  let w_gld := (0.10 + 0.10 * sin (4 * pi * t))%float in
  let w_dbc := max_float 0.0 (0.15 * cos (2 * pi * t))%float in
  let w_shy := max_float 0.0 (1 - (w_spy + w_ief + w_gld + w_dbc))%float in
  [ (lit "SPY", w_spy); (lit "IEF", w_ief); (lit "GLD", w_gld);
    (lit "DBC", w_dbc); (lit "SHY", w_shy) ].

(** One iteration of the loop: both lists grow by one item. *)
Definition backtest_body (n : Z)
    (st : list BacktestPoint * list (dict float)) (i : Z)
  : list BacktestPoint * list (dict float) :=
  let '(pts, weights_ot) := st in
  (pts ++ [backtest_point n i], weights_ot ++ [backtest_weights n i]).

Definition backtest (start end_ : option str) (benchmark : str)
  : BacktestResponse :=
  let end_ := match end_ with None => today_iso | Some e => e end in
  let n := 240 in
  let '(pts, weights_ot) :=
    fold_left (backtest_body n) (range (Z.to_nat n)) ([], []) in
  mkBacktestResponse pts weights_ot.

End BacktestHandler.

(** ** [GET /test] *)

(** The values stored in the diagnostic response. *)
Inductive pyval : Type :=
| VNone
| VStr (s : str)
| VList (l : list str).

(** The handle [db] of module [database]: [db_name] is the attribute
    [name] when the handle has one, [list_collection_names] the result
    of the reachability probe. *)
Record Database := mkDatabase {
  db_name : option str;
  list_collection_names : outcome (list str)
}.

Definition check_mark : str := [0x2705%N].
Definition cross_mark : str := [0x274C%N].
Definition warning_sign : str := [0x26A0%N; 0xFE0F%N].

Definition probe_error_prefix : str :=
  warning_sign ++ lit "  Connected but Error: ".

Definition outer_error_prefix : str := cross_mark ++ lit " Error: ".

Definition not_set : str := cross_mark ++ lit " Not Set".
Definition is_set : str := check_mark ++ lit " Set".

Section TestDatabaseHandler.

Variable db : option Database.

(** [os.getenv] *)
Variable getenv : str -> option str.

(** Truth value of [os.getenv(k)]: unset and empty are both false. *)
Definition env_truthy (k : str) : bool :=
  match getenv k with
  | None | Some [] => false
  | Some (_ :: _) => true
  end.

Definition assign (k : str) (v : pyval) : action (dict pyval) :=
  modify (fun response => dict_set response k v).

Definition test_database_initial : dict pyval :=
  [ (lit "backend", VStr (check_mark ++ lit " Running"));
    (lit "database", VStr (cross_mark ++ lit " Not Available"));
    (lit "database_url", VNone);
    (lit "database_name", VNone);
    (lit "connection_status", VStr (lit "Not Connected"));
    (lit "collections", VList []) ].

Definition test_database_probe (d : Database) : action (dict pyval) :=
  (assign (lit "database") (VStr (check_mark ++ lit " Available")) ;;;
   assign (lit "database_url") (VStr (check_mark ++ lit " Configured")) ;;;
   assign (lit "database_name")
     (VStr (match db_name d with
            | Some n => n
            | None => check_mark ++ lit " Connected"
            end)) ;;;
   assign (lit "connection_status") (VStr (lit "Connected")) ;;;
   try_except_action
     (call (list_collection_names d) (fun collections =>
        assign (lit "collections") (VList (firstn 10 collections)) ;;;
        assign (lit "database")
          (VStr (check_mark ++ lit " Connected & Working"))))
     (fun e =>
        assign (lit "database")
          (VStr (probe_error_prefix ++ slice_to 50 (exn_str e)))))%py.

Definition test_database : outcome (dict pyval) :=
  let response := test_database_initial in
  match
    try_except_action
      (match db with
       | Some d => test_database_probe d
       | None =>
           assign (lit "database")
             (VStr (warning_sign ++ lit "  Available but not initialized"))
       end)
      (fun e =>
         assign (lit "database")
           (VStr (outer_error_prefix ++ slice_to 50 (exn_str e))))
      response
  with
  | (_, Raise e) => Raise e
  | (response, Ret _) =>
      let response :=
        dict_set response (lit "database_url")
          (VStr (if env_truthy (lit "DATABASE_URL") then is_set else not_set)) in
      let response :=
        dict_set response (lit "database_name")
          (VStr (if env_truthy (lit "DATABASE_NAME") then is_set else not_set)) in
      Ret response
  end.

End TestDatabaseHandler.

(** ** [GET /] *)

Definition read_root : dict pyval :=
  [ (lit "message", VStr (lit "RegimeEye API ready")) ].

(** ** The contract in the specification's words *)

(** Clamp of [v] to the closed interval from [lo] to [hi]. *)
Definition clamp (lo hi v : Z) : Z := Z.max lo (Z.min hi v).

(** Sum of all assumption values of a request. *)
Definition assumption_sum (req : ScenarioRequest) : float :=
  Py.sum (values (assumptions req)).

(** The same sum as the compensating [sum] returns it. *)
Definition assumption_sum_compensated (req : ScenarioRequest) : float :=
  Py.sum_compensated (values (assumptions req)).

(** Date label of point [i]: year [2005 + i div 12], zero-padded month
    [(i mod 12) + 1], day [01]. *)
Definition two_digits (m : Z) : str :=
  [N_of_ascii (ascii_of_nat (48 + Z.to_nat (m / 10)));
   N_of_ascii (ascii_of_nat (48 + Z.to_nat (m mod 10)))].

Definition date_label (i : Z) : str :=
  str_of_int (2005 + i / 12) ++ lit "-" ++ two_digits (i mod 12 + 1)
    ++ lit "-01".

(** The fixed allocation returned by the stress test. *)
Definition fixed_stress_weights : dict float :=
  [ (lit "SPY", 0.30%float); (lit "IEF", 0.45%float);
    (lit "GLD", 0.15%float); (lit "DBC", 0.07%float);
    (lit "SHY", 0.03%float) ].

(** ** Sample inputs *)

Definition unreachable_store : str -> ScenarioDocument -> outcome str :=
  fun _ _ =>
    Raise (Exn (lit "ServerSelectionTimeoutError")
               (lit "localhost:27017: [Errno 111] Connection refused")).

Definition rates_shock : ScenarioRequest :=
  mkScenarioRequest (lit "10y to 6%") [(lit "us10y", 6.0%float)].

(** Values whose rounding errors cancel differently under the two
    summations. *)
Definition cancelling_shock : ScenarioRequest :=
  mkScenarioRequest (lit "cancelling")
    [ (lit "a", 1e16%float); (lit "b", 1.0%float);
      (lit "c", (-1e16)%float); (lit "d", (-1.0)%float) ].

Definition server_selection_timeout : exn :=
  Exn (lit "ServerSelectionTimeoutError")
      (lit "localhost:27017: [Errno 111] Connection refused, Timeout: 30s").

Definition unreachable_db : Database :=
  mkDatabase (Some (lit "regime")) (Raise server_selection_timeout).

(** Stand-ins for the math library, used to run the backtest on
    concrete inputs: truncated series kept inside the range of the
    functions they stand for, with the exact special values of C99
    (sin 0 = 0, cos 0 = 1, pow(x, 0) = 1). *)
Definition within_unit (p : float) : float :=
  if (PrimFloat.leb (-1) p && PrimFloat.leb p 1)%bool then p else 0%float.

Definition series_sin (x : float) : float :=
  within_unit (x - x * x * x / 6 + x * x * x * x * x / 120)%float.

Definition series_cos (x : float) : float :=
  within_unit (1 - x * x / 2 + x * x * x * x / 24)%float.

Definition linear_pow (x y : float) : float :=
  if PrimFloat.eqb y 0 then 1%float else (1 + y * (x - 1))%float.

(** ** Binary64 arithmetic

    The vocabulary used to reason about the float operations of the
    backtest through their specification in [SpecFloat]. *)

(** Binary64 format: 53 bits of precision, smallest exponent -1074. *)
Definition fexp64 (e : Z) : Z := Z.max (e - 53) (-1074).

(** The invariant of the right shift: after [k] steps from [M] the
    mantissa is the quotient, and nothing was lost when the remainder
    is zero. *)
Definition shifted (M k : Z) (mrs : shr_record) : Prop :=
  shr_m mrs = M / 2 ^ k /\
  (M mod 2 ^ k = 0 -> shr_r mrs = false /\ shr_s mrs = false).

(** Magnitude at most that of the pair [(mc, ec)]. *)
Definition at_most (mc : positive) (ec : Z) (y : spec_float) : Prop :=
  match y with
  | S754_zero _ => True
  | S754_finite _ m e => e <= ec /\ Z.pos m <= Z.pos mc * 2 ^ (ec - e)
  | _ => False
  end.

(** Magnitude at most one. *)
Definition in_unit (y : spec_float) : Prop :=
  match y with
  | S754_zero _ => True
  | S754_finite _ m e => e <= 0 /\ Z.pos m <= 2 ^ (- e)
  | _ => False
  end.

Definition canonical64 (m : positive) (e : Z) : Prop :=
  fexp64 (Z.pos (digits2_pos m) + e) = e /\ e <= 971.

(** ** Schemas of [schemas.py]

    Constructing a model validates its fields; [None] stands for the
    [ValidationError] raised when a constraint fails.  Inputs are
    taken already typed ([str], [float]). *)

Module Schemas.

Record PortfolioHolding := mkPortfolioHolding {
  symbol : str;
  weight : float
}.

Record Portfolio := mkPortfolio {
  name : str;
  owner : option str;
  holdings : list PortfolioHolding
}.

(** [weight: float = Field(..., ge=0.0, le=1.0)] *)
Definition weight_ok (w : float) : bool :=
  (PrimFloat.leb 0.0 w && PrimFloat.leb w 1.0)%bool.

Definition new_PortfolioHolding (symbol : str) (weight : float)
  : option PortfolioHolding :=
  if weight_ok weight then Some (mkPortfolioHolding symbol weight) else None.

Fixpoint new_holdings (items : list (str * float))
  : option (list PortfolioHolding) :=
  match items with
  | [] => Some []
  | (s, w) :: rest =>
      match new_PortfolioHolding s w, new_holdings rest with
      | Some h, Some hs => Some (h :: hs)
      | _, _ => None
      end
  end.

(** [owner] defaults to [None], [holdings] to a fresh empty list. *)
Definition new_Portfolio (name : str) (owner : option str)
    (holdings : option (list (str * float))) : option Portfolio :=
  match new_holdings (match holdings with Some l => l | None => [] end) with
  | Some hs => Some (mkPortfolio name owner hs)
  | None => None
  end.

End Schemas.

(** [a < b] on [str]: lexicographic order of the code points. *)
Fixpoint str_ltb (a b : str) : bool :=
  match a, b with
  | _, [] => false
  | [], _ :: _ => true
  | x :: a', y :: b' =>
      if (x <? y)%N then true
      else if (x =? y)%N then str_ltb a' b' else false
  end.

(** The five tickers of every allocation. *)
Definition tickers : list str :=
  [lit "SPY"; lit "IEF"; lit "GLD"; lit "DBC"; lit "SHY"].

(** What the diagnostic reports for an environment variable: whether
    it is set to a non-empty value. *)
Definition presence_status (v : option str) : pyval :=
  match v with
  | Some (_ :: _) => VStr (0x2705%N :: lit " Set")
  | _ => VStr (0x274C%N :: lit " Not Set")
  end.



Definition recording_store : str -> ScenarioDocument -> outcome str :=
  fun collection _ => Ret (lit "65f1c0de-" ++ collection).

Definition reachable_db : Database :=
  mkDatabase (Some (lit "regime"))
    (Ret (map (fun i => lit "collection_" ++ str_of_int i) (range 12))).

Definition unit_range (sin : float -> float) : Prop :=
  forall x, PrimFloat.is_finite x = true ->
            PrimFloat.leb (-1) (sin x) = true /\
            PrimFloat.leb (sin x) 1 = true.

(** A weight between 0 and 1. *)
Definition fraction (w : float) : Prop :=
  PrimFloat.leb 0 w = true /\ PrimFloat.leb w 1 = true.

Definition holding_item (h : Schemas.PortfolioHolding) : str * float :=
  (Schemas.symbol h, Schemas.weight h).

(** ** Float order

    Sign classes and upper bounds of [SpecFloat] numbers. *)

(** Sign classes of a float. *)
Definition SF_nonneg (y : spec_float) : Prop :=
  match y with
  | S754_zero _ | S754_infinity false | S754_finite false _ _ => True
  | _ => False
  end.


(** At most the positive number [(mb, eb)]. *)
Definition SF_below (mb : positive) (eb : Z) (y : spec_float) : Prop :=
  match y with
  | S754_zero _ | S754_infinity true | S754_finite true _ _ => True
  | S754_finite false m e => e <= eb /\ Z.pos m <= Z.pos mb * 2 ^ (eb - e)
  | _ => False
  end.

(** * Properties *)

(** ** Prelude facts *)

Lemma sum_nil : Py.sum [] = 0%float.
Proof. reflexivity. Qed.

Lemma max_int_min_int_clamp (v : Z) :
  max_int 0 (min_int 100 v) = clamp 0 100 v.
Proof.
  unfold max_int, min_int, clamp.
  destruct (Z.ltb_spec v 100) as [Hv | Hv].
  - destruct (Z.ltb_spec 0 v); lia.
  - change (0 <? 100) with true. cbv iota. lia.
Qed.

Lemma nth_error_range (n i : nat) :
  (i < n)%nat -> nth_error (range n) i = Some (Z.of_nat i).
Proof.
  intros Hi. unfold range.
  rewrite nth_error_map, nth_error_seq.
  destruct (Nat.ltb_spec i n) as [_ | Hge]; [reflexivity | lia].
Qed.

Lemma length_range (n : nat) : List.length (range n) = n.
Proof. unfold range. now rewrite length_map, length_seq. Qed.

(** ** Binary64 rounding *)

Module Binary64.

Lemma fexp_fexp64 e : SpecFloat.fexp prec emax e = fexp64 e.
Proof. reflexivity. Qed.

Lemma fexp64_mono a b : a <= b -> fexp64 a <= fexp64 b.
Proof. unfold fexp64. lia. Qed.

Lemma digits2_pos_bounds (p : positive) :
  2 ^ (Z.pos (digits2_pos p) - 1) <= Z.pos p < 2 ^ Z.pos (digits2_pos p).
Proof.
  induction p as [p IH | p IH |]; cbn [digits2_pos].
  - rewrite Pos2Z.inj_succ.
    replace (Z.succ (Z.pos (digits2_pos p)) - 1) with
      (Z.succ (Z.pos (digits2_pos p) - 1)) by lia.
    rewrite !Z.pow_succ_r by lia. lia.
  - rewrite Pos2Z.inj_succ.
    replace (Z.succ (Z.pos (digits2_pos p)) - 1) with
      (Z.succ (Z.pos (digits2_pos p) - 1)) by lia.
    rewrite !Z.pow_succ_r by lia. lia.
  - cbn. lia.
Qed.

(** A number bounded by [k * 2^d] has at most [d] more digits than [k]. *)
Lemma digits2_pos_le (m k : positive) (d : Z) :
  0 <= d -> Z.pos m <= Z.pos k * 2 ^ d ->
  Z.pos (digits2_pos m) <= Z.pos (digits2_pos k) + d.
Proof.
  intros Hd Hle.
  pose proof (digits2_pos_bounds m) as [Hm _].
  pose proof (digits2_pos_bounds k) as [_ Hk].
  assert (Hpow : 0 < 2 ^ d) by (apply Z.pow_pos_nonneg; lia).
  assert (Hlt : 2 ^ (Z.pos (digits2_pos m) - 1)
                < 2 ^ (Z.pos (digits2_pos k) + d)).
  { rewrite Z.pow_add_r by lia. nia. }
  apply Z.pow_lt_mono_r_iff in Hlt; lia.
Qed.

Lemma shr_1_m (mrs : shr_record) :
  0 <= shr_m mrs ->
  shr_m (shr_1 mrs) = shr_m mrs / 2 /\
  shr_r (shr_1 mrs) = Z.odd (shr_m mrs) /\
  shr_s (shr_1 mrs) = (shr_r mrs || shr_s mrs)%bool.
Proof.
  destruct mrs as [m r s]. cbn [shr_m shr_r shr_s]. intros Hm.
  destruct m as [| [p | p |] | p]; cbn [shr_1 shr_m shr_r shr_s];
    try lia; (split; [| split; reflexivity]).
  - reflexivity.
  - apply Z.div_unique with 1; lia.
  - apply Z.div_unique with 0; lia.
  - reflexivity.
Qed.

Lemma shifted_start (M : Z) :
  shifted M 0 {| shr_m := M; shr_r := false; shr_s := false |}.
Proof.
  split; cbn; [now rewrite Z.div_1_r | auto].
Qed.

Lemma shifted_step (M k : Z) (mrs : shr_record) :
  0 <= M -> 0 <= k -> shifted M k mrs -> shifted M (k + 1) (shr_1 mrs).
Proof.
  intros HM Hk [Hm Hexact].
  assert (Hpow : 0 < 2 ^ k) by (apply Z.pow_pos_nonneg; lia).
  assert (Hnonneg : 0 <= shr_m mrs).
  { rewrite Hm. apply Z.div_pos; lia. }
  destruct (shr_1_m mrs Hnonneg) as (Hm1 & Hr1 & Hs1).
  assert (Hpow1 : 2 ^ (k + 1) = 2 ^ k * 2).
  { rewrite Z.pow_add_r by lia. reflexivity. }
  split.
  - rewrite Hm1, Hm, Hpow1. now rewrite Z.div_div by lia.
  - intros Hmod. rewrite Hr1, Hs1.
    rewrite Hpow1 in Hmod.
    assert (HMq : M = 2 ^ k * 2 * (M / (2 ^ k * 2))).
    { pose proof (Z.div_mod M (2 ^ k * 2)). lia. }
    assert (Hq : M / 2 ^ k = 2 * (M / (2 ^ k * 2))).
    { symmetry. apply Z.div_unique with 0; lia. }
    assert (Hmodk : M mod 2 ^ k = 0).
    { symmetry. apply Z.mod_unique with (2 * (M / (2 ^ k * 2))); lia. }
    destruct (Hexact Hmodk) as [-> ->].
    rewrite Hm, Hq, Z.odd_mul. split; reflexivity.
Qed.

Lemma iter_pos_shifted (M : Z) (p : positive) :
  0 <= M ->
  forall k mrs, 0 <= k -> shifted M k mrs ->
                shifted M (k + Z.pos p) (iter_pos shr_1 p mrs).
Proof.
  intros HM. induction p as [p IH | p IH |]; intros k mrs Hk Hinv;
    cbn [iter_pos].
  - replace (k + Z.pos p~1) with (k + 1 + Z.pos p + Z.pos p) by lia.
    apply IH; [lia |]. apply IH; [lia |]. now apply shifted_step.
  - replace (k + Z.pos p~0) with (k + Z.pos p + Z.pos p) by lia.
    apply IH; [lia |]. now apply IH.
  - now apply shifted_step.
Qed.


Lemma shr_shifted (M e n : Z) :
  0 <= M ->
  shifted M (Z.max n 0)
    (fst (shr {| shr_m := M; shr_r := false; shr_s := false |} e n)) /\
  snd (shr {| shr_m := M; shr_r := false; shr_s := false |} e n)
    = e + Z.max n 0.
Proof.
  intros HM. destruct n as [| p | p]; cbn [shr fst snd].
  - split; [apply shifted_start | cbn; lia].
  - split; [| lia].
    replace (Z.max (Z.pos p) 0) with (0 + Z.pos p) by lia.
    apply iter_pos_shifted; [exact HM | lia | apply shifted_start].
  - split; [apply shifted_start | cbn; lia].
Qed.

Lemma round_nearest_even_shifted (M k : Z) (mrs : shr_record) :
  shifted M k mrs ->
  M / 2 ^ k <= round_nearest_even (shr_m mrs) (loc_of_shr_record mrs)
            <= M / 2 ^ k + 1 /\
  (M mod 2 ^ k = 0 ->
   round_nearest_even (shr_m mrs) (loc_of_shr_record mrs) = M / 2 ^ k).
Proof.
  intros [Hm Hexact]. destruct mrs as [m [|] [|]];
    cbn [shr_m shr_r shr_s loc_of_shr_record round_nearest_even] in *;
    subst m.
  - split; [lia |]. intros H0. destruct (Hexact H0); discriminate.
  - split; [destruct (Z.even _); lia |].
    intros H0. destruct (Hexact H0); discriminate.
  - split; [lia | reflexivity].
  - split; [lia | reflexivity].
Qed.

(** What rounding an exact nonnegative mantissa does: a first shift by
    [n1] to the exponent of the format, an increment of at most one, a
    second shift by [n2] when the increment carried. *)
Lemma binary_round_aux_exact (sx : bool) (M E : Z) :
  0 <= M ->
  exists n1 n2 m2,
    n1 = Z.max (fexp64 (Zdigits2 M + E) - E) 0 /\
    n2 = Z.max (fexp64 (Zdigits2 m2 + (E + n1)) - (E + n1)) 0 /\
    M / 2 ^ n1 <= m2 <= M / 2 ^ n1 + 1 /\
    (M mod 2 ^ n1 = 0 -> m2 = M / 2 ^ n1) /\
    binary_round_aux prec emax sx M E loc_Exact =
      match m2 / 2 ^ n2 with
      | Z0 => S754_zero sx
      | Z.pos m =>
          if E + n1 + n2 <=? 971 then S754_finite sx m (E + n1 + n2)
          else S754_infinity sx
      | Z.neg _ => S754_nan
      end.
Proof.
  intros HM.
  unfold binary_round_aux, shr_fexp.
  cbn [shr_record_of_loc]. change (SpecFloat.fexp prec emax) with fexp64.
  set (n1 := fexp64 (Zdigits2 M + E) - E).
  destruct (shr_shifted M E n1 HM) as [Hinv1 He1].
  destruct (shr {| shr_m := M; shr_r := false; shr_s := false |} E n1)
    as [mrs1 e1]. cbn [fst snd] in Hinv1, He1. subst e1.
  destruct (round_nearest_even_shifted _ _ _ Hinv1) as [Hround Hexact].
  set (m2 := round_nearest_even (shr_m mrs1) (loc_of_shr_record mrs1)) in *.
  assert (Hm2 : 0 <= m2).
  { assert (0 <= M / 2 ^ Z.max n1 0); [| lia].
    apply Z.div_pos; [exact HM | apply Z.pow_pos_nonneg; lia]. }
  set (n2 := fexp64 (Zdigits2 m2 + (E + Z.max n1 0)) - (E + Z.max n1 0)).
  destruct (shr_shifted m2 (E + Z.max n1 0) n2 Hm2) as [Hinv2 He2].
  destruct (shr {| shr_m := m2; shr_r := false; shr_s := false |}
              (E + Z.max n1 0) n2) as [mrs2 e2].
  cbn [fst snd] in Hinv2, He2. subst e2.
  exists (Z.max n1 0), (Z.max n2 0), m2.
  destruct Hinv2 as [-> _].
  repeat split; try assumption; try lia.
Qed.

(** Rounding a nonnegative mantissa keeps the sign it is given. *)
Lemma binary_round_aux_sign (sx : bool) (M E : Z) :
  0 <= M ->
  match binary_round_aux prec emax sx M E loc_Exact with
  | S754_zero s | S754_infinity s | S754_finite s _ _ => s = sx
  | S754_nan => False
  end.
Proof.
  intros HM.
  destruct (binary_round_aux_exact sx M E HM)
    as (n1 & n2 & m2 & Hn1 & Hn2 & Hround & _ & ->).
  assert (Hm2 : 0 <= m2).
  { assert (0 <= M / 2 ^ n1); [| lia].
    apply Z.div_pos; [exact HM | apply Z.pow_pos_nonneg; lia]. }
  assert (Hm3 : 0 <= m2 / 2 ^ n2).
  { apply Z.div_pos; [exact Hm2 | apply Z.pow_pos_nonneg; lia]. }
  destruct (m2 / 2 ^ n2); [reflexivity | | lia].
  destruct (_ <=? _); reflexivity.
Qed.

(** Rounding is monotone below a number of the format: a mantissa
    whose value is at most that of the canonical pair [(mc, ec)] rounds
    to a number of at most that value. *)
Lemma binary_round_aux_le (sx : bool) (M mc : positive) (E ec : Z) :
  fexp64 (Z.pos (digits2_pos mc) + ec) = ec ->
  ec <= 971 ->
  E <= ec ->
  Z.pos M <= Z.pos mc * 2 ^ (ec - E) ->
  match binary_round_aux prec emax sx (Z.pos M) E loc_Exact with
  | S754_zero s => s = sx
  | S754_finite s m e =>
      s = sx /\ e <= ec /\ Z.pos m <= Z.pos mc * 2 ^ (ec - e)
  | _ => False
  end.
Proof.
  intros Hcanon Hmax HE HM.
  destruct (binary_round_aux_exact sx (Z.pos M) E)
    as (n1 & n2 & m2 & Hn1 & Hn2 & Hround & Hexact & ->); [lia |].
  cbn [Zdigits2] in Hn1.
  pose proof (digits2_pos_le M mc (ec - E) ltac:(lia) HM) as HdM.
  pose proof (fexp64_mono (Z.pos (digits2_pos M) + E)
                (Z.pos (digits2_pos mc) + ec) ltac:(lia)) as Hf1.
  assert (Hn1pos : 0 <= n1) by lia.
  assert (He1 : E + n1 <= ec) by lia.
  set (e1 := E + n1) in *.
  set (k := Z.pos mc * 2 ^ (ec - e1)).
  assert (Hk : Z.pos mc * 2 ^ (ec - E) = k * 2 ^ n1).
  { unfold k. rewrite <- Z.mul_assoc, <- Z.pow_add_r by lia.
    f_equal. f_equal. lia. }
  assert (Hpow1 : 0 < 2 ^ n1) by (apply Z.pow_pos_nonneg; lia).
  assert (Hq : Z.pos M / 2 ^ n1 <= k).
  { apply Z.div_le_upper_bound; [exact Hpow1 | lia]. }
  assert (Hm2k : m2 <= k).
  { destruct (Z.eq_dec (Z.pos M / 2 ^ n1) k) as [Heq | Hne]; [| lia].
    assert (Hfloor : 2 ^ n1 * (Z.pos M / 2 ^ n1) <= Z.pos M)
      by (apply Z.mul_div_le; exact Hpow1).
    assert (HMeq : Z.pos M = k * 2 ^ n1) by nia.
    rewrite Hexact; [lia |].
    rewrite HMeq. apply Z.mod_mul. lia. }
  assert (Hm2pos : 0 <= m2).
  { assert (0 <= Z.pos M / 2 ^ n1); [| lia].
    apply Z.div_pos; lia. }
  assert (Hd2 : Zdigits2 m2 + e1 <= Z.pos (digits2_pos mc) + ec).
  { destruct m2 as [| p | p]; cbn [Zdigits2]; [lia | | lia].
    pose proof (digits2_pos_le p mc (ec - e1) ltac:(lia) Hm2k). lia. }
  pose proof (fexp64_mono _ _ Hd2) as Hf2.
  assert (Hn2pos : 0 <= n2) by lia.
  assert (He2 : e1 + n2 <= ec) by lia.
  assert (Hpow2 : 0 < 2 ^ n2) by (apply Z.pow_pos_nonneg; lia).
  assert (Hk2 : k = Z.pos mc * 2 ^ (ec - (e1 + n2)) * 2 ^ n2).
  { unfold k. rewrite <- Z.mul_assoc, <- Z.pow_add_r by lia.
    f_equal. f_equal. lia. }
  assert (Hm3 : m2 / 2 ^ n2 <= Z.pos mc * 2 ^ (ec - (e1 + n2))).
  { apply Z.div_le_upper_bound; [exact Hpow2 | lia]. }
  assert (Hm3pos : 0 <= m2 / 2 ^ n2) by (apply Z.div_pos; lia).
  destruct (m2 / 2 ^ n2) as [| m3 | m3]; [reflexivity | | lia].
  destruct (Z.leb_spec (e1 + n2) 971) as [_ | Hover]; [| lia].
  repeat split; [lia | exact Hm3].
Qed.


Lemma pos_iter_xO (m d : positive) :
  Z.pos (Pos.iter xO m d) = Z.pos m * 2 ^ Z.pos d.
Proof.
  induction d as [| d IH] using Pos.peano_ind.
  - cbn. lia.
  - rewrite Pos.iter_succ, Pos2Z.inj_xO, IH, Pos2Z.inj_succ.
    rewrite Z.pow_succ_r by lia. lia.
Qed.

Lemma shl_align_value (mx : positive) (ex ez : Z) :
  ez <= ex -> Z.pos (fst (shl_align mx ex ez)) = Z.pos mx * 2 ^ (ex - ez).
Proof.
  intros Hle. unfold shl_align.
  destruct (ez - ex) as [| d | d] eqn:Hd; cbn [fst]; try lia.
  - replace (ex - ez) with 0 by lia. cbn. lia.
  - rewrite pos_iter_xO. f_equal. f_equal. lia.
Qed.

Lemma valid_binary_canonical64 (s : bool) (m : positive) (e : Z) :
  valid_binary (S754_finite s m e) = true -> canonical64 m e.
Proof.
  cbn [SpecFloat.valid_binary]. unfold bounded, canonical_mantissa.
  change (SpecFloat.fexp prec emax) with fexp64.
  intros H. apply andb_prop in H as [Hc Hb].
  apply Z.eqb_eq in Hc. apply Z.leb_le in Hb.
  split; [exact Hc | exact Hb].
Qed.

Lemma SFmul_at_most (sc : bool) (mc : positive) (ec : Z) (y : spec_float) :
  canonical64 mc ec -> in_unit y ->
  at_most mc ec (SFmul prec emax (S754_finite sc mc ec) y).
Proof.
  intros [Hcanon Hmax] Hy.
  destruct y as [sy | sy | | sy my ey]; cbn [in_unit] in Hy;
    try contradiction; cbn [SFmul].
  - exact I.
  - destruct Hy as [Hey Hmy].
    pose proof (binary_round_aux_le (xorb sc sy) (mc * my) mc (ec + ey) ec
                  Hcanon Hmax ltac:(lia)) as Hround.
    replace (ec - (ec + ey)) with (- ey) in Hround by lia.
    rewrite Pos2Z.inj_mul in Hround.
    specialize (Hround ltac:(nia)).
    destruct (binary_round_aux _ _ _ _ _ _); cbn [at_most]; tauto.
Qed.

Lemma binary_normalize_nonneg (m e : Z) :
  0 <= m ->
  SFleb (S754_zero false) (binary_normalize prec emax m e false) = true.
Proof.
  intros Hm. destruct m as [| p | p]; [reflexivity | | lia].
  cbn [binary_normalize]. unfold binary_round.
  destruct (shl_align p e _) as [mz ez].
  pose proof (binary_round_aux_sign false (Z.pos mz) ez ltac:(lia)) as Hsign.
  destruct (binary_round_aux _ _ _ _ _ _); try contradiction;
    subst; reflexivity.
Qed.

Section Affine.

(** A positive term [(ma, ea)] and a factor [(mc, ec)] of smaller or
    equal magnitude. *)
Variables (ma mc : positive) (ea ec : Z).
Hypothesis exponents : ec <= ea.
Hypothesis magnitudes : Z.pos mc <= Z.pos ma * 2 ^ (ea - ec).

Lemma aligned_le (my : positive) (ey : Z) :
  ey <= ec -> Z.pos my <= Z.pos mc * 2 ^ (ec - ey) ->
  Z.pos (fst (shl_align my ey (Z.min ea ey)))
  <= Z.pos (fst (shl_align ma ea (Z.min ea ey))).
Proof.
  intros Hey Hmy.
  rewrite !shl_align_value by lia.
  replace (Z.min ea ey) with ey by lia.
  replace (ey - ey) with 0 by lia.
  replace (ea - ey) with ((ea - ec) + (ec - ey)) by lia.
  rewrite Z.pow_add_r by lia.
  assert (0 < 2 ^ (ec - ey)) by (apply Z.pow_pos_nonneg; lia).
  cbn [Z.pow]. nia.
Qed.

Lemma SFadd_nonneg (y : spec_float) :
  at_most mc ec y ->
  SFleb (S754_zero false) (SFadd prec emax (S754_finite false ma ea) y) = true.
Proof.
  intros Hy. destruct y as [sy | sy | | sy my ey]; cbn [at_most] in Hy;
    try contradiction; cbn [SFadd].
  - reflexivity.
  - destruct Hy as [Hey Hmy].
    apply binary_normalize_nonneg.
    pose proof (aligned_le my ey Hey Hmy).
    destruct sy; cbn [cond_Zopp]; lia.
Qed.

Lemma SFsub_nonneg (y : spec_float) :
  at_most mc ec y ->
  SFleb (S754_zero false) (SFsub prec emax (S754_finite false ma ea) y) = true.
Proof.
  intros Hy. destruct y as [sy | sy | | sy my ey]; cbn [at_most] in Hy;
    try contradiction; cbn [SFsub].
  - reflexivity.
  - destruct Hy as [Hey Hmy].
    apply binary_normalize_nonneg.
    pose proof (aligned_le my ey Hey Hmy).
    destruct sy; cbn [cond_Zopp]; lia.
Qed.

End Affine.

Lemma SFleb_finite_pos (m1 m2 : positive) (e1 e2 : Z) :
  SFleb (S754_finite false m1 e1) (S754_finite false m2 e2) = true ->
  e1 < e2 \/ (e1 = e2 /\ Z.pos m1 <= Z.pos m2).
Proof.
  unfold SFleb, SFcompare.
  destruct (Z.compare_spec e1 e2) as [Heq | Hlt | Hgt];
    [| now left | discriminate].
  rewrite Pos.compare_cont_spec. cbn [Pos.switch_Eq].
  intros Hle. right. split; [exact Heq |].
  destruct (Pos.compare_spec m1 m2) as [Hm | Hm | Hm];
    [subst; lia | lia | discriminate].
Qed.

Lemma SFleb_finite_neg (m1 m2 : positive) (e1 e2 : Z) :
  SFleb (S754_finite true m1 e1) (S754_finite true m2 e2) = true ->
  e2 < e1 \/ (e1 = e2 /\ Z.pos m2 <= Z.pos m1).
Proof.
  unfold SFleb, SFcompare.
  destruct (Z.compare_spec e1 e2) as [Heq | Hlt | Hgt];
    [| discriminate | now left].
  rewrite Pos.compare_cont_spec. cbn [Pos.switch_Eq].
  intros Hle. right. split; [exact Heq |].
  destruct (Pos.compare_spec m1 m2) as [Hm | Hm | Hm];
    [subst; lia | discriminate | lia].
Qed.

Lemma Prim2SF_one : Prim2SF 1 = S754_finite false 4503599627370496 (-52).
Proof. vm_compute. reflexivity. Qed.

Lemma Prim2SF_minus_one :
  Prim2SF (-1) = S754_finite true 4503599627370496 (-52).
Proof. vm_compute. reflexivity. Qed.

(** A float between -1 and 1 has magnitude at most one. *)
Lemma leb_unit_in_unit (s : float) :
  PrimFloat.leb (-1) s = true -> PrimFloat.leb s 1 = true ->
  in_unit (Prim2SF s).
Proof.
  rewrite !leb_spec, Prim2SF_one, Prim2SF_minus_one.
  pose proof (Prim2SF_valid s) as Hvalid.
  destruct (Prim2SF s) as [b | b | | b m e]; cbn [in_unit].
  - trivial.
  - destruct b; cbn; discriminate.
  - cbn; discriminate.
  - apply valid_binary_canonical64 in Hvalid as [Hcanon _].
    pose proof (digits2_pos_bounds m) as [_ Hm].
    unfold fexp64 in Hcanon.
    assert (Hsmall : e < -52 -> e <= 0 /\ Z.pos m <= 2 ^ (- e)).
    { intros He. split; [lia |].
      assert (2 ^ Z.pos (digits2_pos m) <= 2 ^ (- e))
        by (apply Z.pow_le_mono_r; lia).
      lia. }
    assert (Hedge : e = -52 -> Z.pos m <= 4503599627370496 ->
                    e <= 0 /\ Z.pos m <= 2 ^ (- e)).
    { intros -> Hle. split; [lia | exact Hle]. }
    destruct b.
    + intros Hlo _. apply SFleb_finite_neg in Hlo as [He | [He Hle]].
      * now apply Hsmall.
      * apply Hedge; [now symmetry | exact Hle].
    + intros _ Hhi. apply SFleb_finite_pos in Hhi as [He | [He Hle]].
      * now apply Hsmall.
      * now apply Hedge.
Qed.


Lemma Prim2SF_zero : Prim2SF 0 = S754_zero false.
Proof. vm_compute. reflexivity. Qed.

Section AffineFloat.

(** [a] positive, [c] of smaller or equal magnitude. *)
Variables (a c : float) (sc : bool) (ma mc : positive) (ea ec : Z).
Hypothesis a_finite : Prim2SF a = S754_finite false ma ea.
Hypothesis c_finite : Prim2SF c = S754_finite sc mc ec.
Hypothesis exponents : ec <= ea.
Hypothesis magnitudes : Z.pos mc <= Z.pos ma * 2 ^ (ea - ec).

Variable s : float.
Hypothesis s_lower : PrimFloat.leb (-1) s = true.
Hypothesis s_upper : PrimFloat.leb s 1 = true.

Lemma product_at_most : at_most mc ec (Prim2SF (c * s)).
Proof.
  rewrite mul_spec, c_finite. apply SFmul_at_most.
  - apply (valid_binary_canonical64 sc). rewrite <- c_finite.
    apply Prim2SF_valid.
  - now apply leb_unit_in_unit.
Qed.

Lemma add_scaled_nonneg : PrimFloat.leb 0 (a + c * s) = true.
Proof.
  rewrite leb_spec, add_spec, a_finite, Prim2SF_zero.
  apply (SFadd_nonneg ma mc ea ec exponents magnitudes), product_at_most.
Qed.

Lemma sub_scaled_nonneg : PrimFloat.leb 0 (a - c * s) = true.
Proof.
  rewrite leb_spec, sub_spec, a_finite, Prim2SF_zero.
  apply (SFsub_nonneg ma mc ea ec exponents magnitudes), product_at_most.
Qed.

End AffineFloat.

Lemma ltb_leb (x y : float) :
  PrimFloat.ltb x y = true -> PrimFloat.leb x y = true.
Proof.
  rewrite ltb_spec, leb_spec. unfold SFltb, SFleb.
  destruct (SFcompare _ _) as [[| |] |]; congruence.
Qed.

End Binary64.

(** ** Stress test *)

Section StressTestFacts.

Variable create_document : str -> ScenarioDocument -> outcome str.

Lemma stress_shift_sum (req : ScenarioRequest) :
  stress_shift req = assumption_sum req.
Proof.
  unfold stress_shift, assumption_sum.
  destruct (assumptions req); reflexivity.
Qed.

(** The handler always returns, and its three fields are determined as
    follows: the identifier is that of the collaborator when it
    returned, and nothing otherwise. *)
Lemma stress_test_returns (req : ScenarioRequest) :
  stress_test create_document req =
  Ret (mkStressTestResult
         (match create_document (lit "scenario")
                  (mkScenarioDocument (name req) (assumptions req)) with
          | Ret id => Some id
          | Raise _ => None
          end)
         (stress_conviction (stress_shift req))
         stress_weights).
Proof.
  unfold stress_test, try_except, bind.
  destruct (create_document _ _); reflexivity.
Qed.

Lemma stress_conviction_cases (shift : float) :
  stress_conviction shift = if PrimFloat.ltb shift 0 then 75 else 65.
Proof.
  unfold stress_conviction.
  destruct (PrimFloat.ltb shift 0); reflexivity.
Qed.

Lemma stress_shift_compensated_sum (req : ScenarioRequest) :
  stress_shift_compensated req = assumption_sum_compensated req.
Proof.
  unfold stress_shift_compensated, assumption_sum_compensated.
  destruct (assumptions req); reflexivity.
Qed.

Lemma stress_test_compensated_returns (req : ScenarioRequest) :
  stress_test_compensated create_document req =
  Ret (mkStressTestResult
         (match create_document (lit "scenario")
                  (mkScenarioDocument (name req) (assumptions req)) with
          | Ret id => Some id
          | Raise _ => None
          end)
         (stress_conviction (stress_shift_compensated req))
         stress_weights).
Proof.
  unfold stress_test_compensated, try_except, bind.
  destruct (create_document _ _); reflexivity.
Qed.

(** The summation of the interpreter reaches the conviction only: the
    identifier and the weights are the same under both. *)
Lemma stress_test_compensated_fields (req : ScenarioRequest) :
  exists r r',
    stress_test create_document req = Ret r /\
    stress_test_compensated create_document req = Ret r' /\
    scenario_id r' = scenario_id r /\
    weights r' = weights r.
Proof.
  do 2 eexists.
  split; [apply stress_test_returns |].
  split; [apply stress_test_compensated_returns |].
  split; reflexivity.
Qed.

(** The two summations can disagree on the sign, and then the
    conviction differs between interpreters: here the values add up to
    -1.0 from left to right and to 0.0 with compensation. *)
Lemma stress_test_summation_matters :
  assumption_sum cancelling_shock = (-1.0)%float /\
  assumption_sum_compensated cancelling_shock = 0.0%float /\
  exists r r',
    stress_test create_document cancelling_shock = Ret r /\
    stress_test_compensated create_document cancelling_shock = Ret r' /\
    conviction r = 75 /\ conviction r' = 65.
Proof.
  split; [reflexivity |]. split; [reflexivity |].
  do 2 eexists.
  split; [apply stress_test_returns |].
  split; [apply stress_test_compensated_returns |].
  split; reflexivity.
Qed.

End StressTestFacts.

(** C1: for every request and every behaviour of the persistence call,
    the returned conviction is the clamp to [0,100] of
    [70 + 5*(1 if shift<0 else -1)], where [shift] is the sum of all
    assumption values (0.0 for an empty mapping), as the interpreter's
    [sum] returns it: added from left to right up to CPython 3.11,
    compensated from 3.12 on.  Under both, [{"a": -1.0}] gives 75,
    [{"a": 1.0}] gives 65 and the empty mapping gives 65. *)
Theorem stress_test_conviction_formula :
  (forall create_document req,
     exists r,
       stress_test create_document req = Ret r /\
       conviction r =
         clamp 0 100
           (70 + 5 * (if PrimFloat.ltb (assumption_sum req) 0 then 1 else -1)))
  /\ (forall create_document req,
        exists r,
          stress_test_compensated create_document req = Ret r /\
          conviction r =
            clamp 0 100
              (70 + 5 * (if PrimFloat.ltb (assumption_sum_compensated req) 0
                         then 1 else -1)))
  /\ (forall nm,
        assumption_sum (mkScenarioRequest nm []) = 0.0%float /\
        assumption_sum_compensated (mkScenarioRequest nm []) = 0.0%float)
  /\ (forall create_document nm,
        exists r r',
          stress_test create_document
            (mkScenarioRequest nm [(lit "a", (-1.0)%float)]) = Ret r /\
          stress_test_compensated create_document
            (mkScenarioRequest nm [(lit "a", (-1.0)%float)]) = Ret r' /\
          conviction r = 75 /\ conviction r' = 75)
  /\ (forall create_document nm,
        exists r r',
          stress_test create_document
            (mkScenarioRequest nm [(lit "a", 1.0%float)]) = Ret r /\
          stress_test_compensated create_document
            (mkScenarioRequest nm [(lit "a", 1.0%float)]) = Ret r' /\
          conviction r = 65 /\ conviction r' = 65)
  /\ (forall create_document nm,
        exists r r',
          stress_test create_document (mkScenarioRequest nm []) = Ret r /\
          stress_test_compensated create_document (mkScenarioRequest nm [])
            = Ret r' /\
          conviction r = 65 /\ conviction r' = 65).
Proof.
  split; [| split; [| split; [| split; [| split]]]].
  - intros cd req. eexists. split; [apply stress_test_returns |].
    cbn [conviction]. unfold stress_conviction.
    now rewrite max_int_min_int_clamp, stress_shift_sum.
  - intros cd req. eexists. split; [apply stress_test_compensated_returns |].
    cbn [conviction]. unfold stress_conviction.
    now rewrite max_int_min_int_clamp, stress_shift_compensated_sum.
  - intros nm. split; reflexivity.
  - intros cd nm. do 2 eexists.
    split; [apply stress_test_returns |].
    split; [apply stress_test_compensated_returns |]. split; reflexivity.
  - intros cd nm. do 2 eexists.
    split; [apply stress_test_returns |].
    split; [apply stress_test_compensated_returns |]. split; reflexivity.
  - intros cd nm. do 2 eexists.
    split; [apply stress_test_returns |].
    split; [apply stress_test_compensated_returns |]. split; reflexivity.
Qed.

(** C6: when the persistence call raises, the handler still returns;
    the identifier of the response is null, and its conviction and
    weights are those of the response produced when persistence
    succeeds. *)
Theorem stress_test_swallows_persistence_failure
    (create_document : str -> ScenarioDocument -> outcome str)
    (req : ScenarioRequest) (e : exn)
    (Hraise : create_document (lit "scenario")
                (mkScenarioDocument (name req) (assumptions req)) = Raise e) :
  exists r,
    stress_test create_document req = Ret r /\
    scenario_id r = None /\
    forall create_document' id,
      create_document' (lit "scenario")
        (mkScenarioDocument (name req) (assumptions req)) = Ret id ->
      exists r',
        stress_test create_document' req = Ret r' /\
        scenario_id r' = Some id /\
        conviction r = conviction r' /\
        weights r = weights r'.
Proof.
  eexists. split; [apply stress_test_returns |].
  rewrite Hraise. split; [reflexivity |].
  intros cd' id Hok.
  eexists. split; [apply stress_test_returns |].
  rewrite Hok. repeat split.
Qed.

Lemma stress_test_swallows_persistence_failure_witness :
  exists r,
    stress_test unreachable_store rates_shock = Ret r /\
    scenario_id r = None /\
    forall create_document' id,
      create_document' (lit "scenario")
        (mkScenarioDocument (name rates_shock) (assumptions rates_shock))
        = Ret id ->
      exists r',
        stress_test create_document' rates_shock = Ret r' /\
        scenario_id r' = Some id /\
        conviction r = conviction r' /\
        weights r = weights r'.
Proof.
  apply (stress_test_swallows_persistence_failure unreachable_store
           rates_shock
           (Exn (lit "ServerSelectionTimeoutError")
                (lit "localhost:27017: [Errno 111] Connection refused"))).
  reflexivity.
Defined.

(** C7: whatever the request's name and assumptions, and whatever the
    persistence call does, the returned weights are exactly
    SPY 0.30, IEF 0.45, GLD 0.15, DBC 0.07, SHY 0.03. *)
Theorem stress_test_weights_fixed :
  forall create_document req,
    exists r,
      stress_test create_document req = Ret r /\
      weights r = fixed_stress_weights.
Proof.
  intros cd req. eexists. split; [apply stress_test_returns | reflexivity].
Qed.

(** C9: the returned conviction is 75 exactly when the sum of the
    assumption values is negative and 65 otherwise, the sum being the
    one the interpreter's [sum] returns (added from left to right up to
    CPython 3.11, compensated from 3.12 on); the clamp leaves the value
    [70 + 5*(1 if shift<0 else -1)] unchanged, and the conviction lies
    strictly between 0 and 100. *)
Theorem stress_test_conviction_range :
  (forall create_document req,
     exists r,
       stress_test create_document req = Ret r /\
       (conviction r = 65 \/ conviction r = 75) /\
       (conviction r = 75 <-> PrimFloat.ltb (assumption_sum req) 0 = true) /\
       (conviction r = 65 <-> PrimFloat.ltb (assumption_sum req) 0 = false) /\
       conviction r =
         70 + 5 * (if PrimFloat.ltb (assumption_sum req) 0 then 1 else -1) /\
       0 < conviction r < 100) /\
  (forall create_document req,
     exists r,
       stress_test_compensated create_document req = Ret r /\
       (conviction r = 65 \/ conviction r = 75) /\
       (conviction r = 75 <->
        PrimFloat.ltb (assumption_sum_compensated req) 0 = true) /\
       (conviction r = 65 <->
        PrimFloat.ltb (assumption_sum_compensated req) 0 = false) /\
       conviction r =
         70 + 5 * (if PrimFloat.ltb (assumption_sum_compensated req) 0
                   then 1 else -1) /\
       0 < conviction r < 100).
Proof.
  split.
  - intros cd req. eexists. split; [apply stress_test_returns |].
    cbn [conviction].
    rewrite stress_conviction_cases, stress_shift_sum.
    destruct (PrimFloat.ltb (assumption_sum req) 0); cbn;
      repeat split; try lia; try discriminate; auto.
  - intros cd req. eexists. split; [apply stress_test_compensated_returns |].
    cbn [conviction].
    rewrite stress_conviction_cases, stress_shift_compensated_sum.
    destruct (PrimFloat.ltb (assumption_sum_compensated req) 0); cbn;
      repeat split; try lia; try discriminate; auto.
Qed.

(** ** Regime snapshot *)

(** C4: every snapshot has a probabilities mapping with exactly four
    keys whose values sum to 1.0 within 1e-9, conviction 84, weights
    that sum to 1.0 and benchmark weights that sum to 1.0. *)
Theorem regime_now_literals (today_iso : str) :
  let r := regime_now today_iso in
  List.length (probabilities r) = 4%nat /\
  NoDup (keys (probabilities r)) /\
  PrimFloat.leb (PrimFloat.abs (Py.sum (values (probabilities r)) - 1)) 1e-9
    = true /\
  rn_conviction r = 84 /\
  Py.sum (values (rn_weights r)) = 1%float /\
  Py.sum (values (benchmark_weights r)) = 1%float.
Proof.
  cbv zeta. repeat split.
  cbn. repeat constructor; cbn; intuition discriminate.
Qed.

(** The compensated summation of CPython 3.12 and later gives the same
    three sums. *)
Lemma regime_now_sums_compensated (today_iso : str) :
  let r := regime_now today_iso in
  sum_compensated (values (probabilities r)) = 1%float /\
  sum_compensated (values (rn_weights r)) = 1%float /\
  sum_compensated (values (benchmark_weights r)) = 1%float.
Proof. cbv zeta. repeat split. Qed.

(** ** Backtest *)

Section BacktestFacts.

Variable today_iso : str.
Variable sin cos : float -> float.
Variable pow : float -> float -> float.

Let body := backtest_body sin cos pow.
Let point := backtest_point sin pow.
Let wts := backtest_weights sin cos.

(** Loop invariant: after the items [l], both lists have grown by the
    images of [l], in order. *)
Lemma backtest_loop (n : Z) (l : list Z) :
  forall pts weights_ot,
    fold_left (body n) l (pts, weights_ot) =
    (pts ++ map (point n) l, weights_ot ++ map (wts n) l).
Proof.
  induction l as [| i l IH]; intros pts weights_ot; cbn [fold_left map].
  - now rewrite !app_nil_r.
  - unfold body at 2. cbn [backtest_body]. rewrite IH.
    now rewrite <- !app_assoc.
Qed.

Lemma backtest_unfold (start end_ : option str) (benchmark : str) :
  backtest today_iso sin cos pow start end_ benchmark =
  mkBacktestResponse (map (point 240) (range 240)) (map (wts 240) (range 240)).
Proof.
  unfold backtest.
  change (Z.to_nat 240) with 240%nat.
  fold body. now rewrite backtest_loop.
Qed.

Lemma backtest_equity_nth (start end_ : option str) (benchmark : str) (i : nat) :
  (i < 240)%nat ->
  nth_error (equity_curve (backtest today_iso sin cos pow start end_ benchmark)) i
  = Some (point 240 (Z.of_nat i)).
Proof.
  intros Hi. rewrite backtest_unfold. cbn [equity_curve].
  now rewrite nth_error_map, nth_error_range.
Qed.

Lemma backtest_weights_nth (start end_ : option str) (benchmark : str) (i : nat) :
  (i < 240)%nat ->
  nth_error
    (weights_over_time (backtest today_iso sin cos pow start end_ benchmark)) i
  = Some (wts 240 (Z.of_nat i)).
Proof.
  intros Hi. rewrite backtest_unfold. cbn [weights_over_time].
  now rewrite nth_error_map, nth_error_range.
Qed.

End BacktestFacts.

Lemma two_digits_format (m : Z) :
  1 <= m <= 12 -> format_02d m = two_digits m.
Proof.
  intros Hm.
  assert (Hcases : m = 1 \/ m = 2 \/ m = 3 \/ m = 4 \/ m = 5 \/ m = 6 \/
                   m = 7 \/ m = 8 \/ m = 9 \/ m = 10 \/ m = 11 \/ m = 12)
    by lia.
  repeat (destruct Hcases as [-> | Hcases]; [reflexivity |]).
  now subst.
Qed.

Lemma backtest_point_date sin pow (n i : Z) :
  0 <= i -> date (backtest_point sin pow n i) = date_label i.
Proof.
  intros Hi. unfold backtest_point, date_label. cbn [date].
  rewrite two_digits_format; [reflexivity |].
  pose proof (Z.mod_pos_bound i 12). lia.
Qed.

(** C2: two calls with any values of [start], [end] and [benchmark]
    (made at any two dates) return the same response. *)
Theorem backtest_ignores_inputs sin cos pow :
  forall today_iso start end_ benchmark today_iso' start' end_' benchmark',
    backtest today_iso sin cos pow start end_ benchmark =
    backtest today_iso' sin cos pow start' end_' benchmark'.
Proof.
  intros. now rewrite !backtest_unfold.
Qed.

(** C5: every response has exactly 240 equity-curve points and 240
    weight mappings; point [i] is dated year [2005 + i div 12], month
    [(i mod 12) + 1] on two digits, day 01, so point 0 is dated
    2005-01-01 and point 239 is dated 2024-12-01; and the three values
    at index 0 equal 100.0.  The math library is assumed to return
    [sin 0 = 0] and [x ** 0.0 = 1]. *)
Theorem backtest_shape today_iso sin cos pow
    (sin_zero : sin 0%float = 0%float)
    (pow_zero : forall x, pow x 0%float = 1%float)
    (start end_ : option str) (benchmark : str) :
  let r := backtest today_iso sin cos pow start end_ benchmark in
  List.length (equity_curve r) = 240%nat /\
  List.length (weights_over_time r) = 240%nat /\
  len (equity_curve r) = len (weights_over_time r) /\
  (forall i p, (i < 240)%nat -> nth_error (equity_curve r) i = Some p ->
               date p = date_label (Z.of_nat i)) /\
  option_map date (nth_error (equity_curve r) 0) = Some (lit "2005-01-01") /\
  option_map date (nth_error (equity_curve r) 239) = Some (lit "2024-12-01") /\
  option_map taa (nth_error (equity_curve r) 0) = Some 100%float /\
  option_map saa (nth_error (equity_curve r) 0) = Some 100%float /\
  option_map sixty_forty (nth_error (equity_curve r) 0) = Some 100%float.
Proof.
  cbv zeta.
  assert (Hlen_pts :
    List.length (equity_curve
      (backtest today_iso sin cos pow start end_ benchmark)) = 240%nat).
  { rewrite backtest_unfold. cbn [equity_curve].
    now rewrite length_map, length_range. }
  assert (Hlen_w :
    List.length (weights_over_time
      (backtest today_iso sin cos pow start end_ benchmark)) = 240%nat).
  { rewrite backtest_unfold. cbn [weights_over_time].
    now rewrite length_map, length_range. }
  split; [exact Hlen_pts |]. split; [exact Hlen_w |].
  split; [unfold len; now rewrite Hlen_pts, Hlen_w |].
  split.
  { intros i p Hi Hp. rewrite backtest_equity_nth in Hp by exact Hi.
    injection Hp as <-. apply backtest_point_date. lia. }
  rewrite (backtest_equity_nth today_iso sin cos pow start end_ benchmark 0)
    by lia.
  rewrite (backtest_equity_nth today_iso sin cos pow start end_ benchmark 239)
    by lia.
  cbn [option_map].
  split; [now rewrite backtest_point_date |].
  split; [now rewrite backtest_point_date |].
  unfold backtest_point. cbn [taa saa sixty_forty].
  change (float_of_int (Z.of_nat 0) / float_of_int 240 * 20)%float
    with 0%float.
  change (8 * (float_of_int (Z.of_nat 0) / float_of_int 240))%float
    with 0%float.
  rewrite !pow_zero, sin_zero.
  repeat split.
Qed.

Lemma backtest_shape_witness :
  let r := backtest (lit "2026-11-04") series_sin series_cos linear_pow
             (Some (lit "2010-01-01")) None (lit "60_40") in
  List.length (equity_curve r) = 240%nat /\
  List.length (weights_over_time r) = 240%nat /\
  len (equity_curve r) = len (weights_over_time r) /\
  (forall i p, (i < 240)%nat -> nth_error (equity_curve r) i = Some p ->
               date p = date_label (Z.of_nat i)) /\
  option_map date (nth_error (equity_curve r) 0) = Some (lit "2005-01-01") /\
  option_map date (nth_error (equity_curve r) 239) = Some (lit "2024-12-01") /\
  option_map taa (nth_error (equity_curve r) 0) = Some 100%float /\
  option_map saa (nth_error (equity_curve r) 0) = Some 100%float /\
  option_map sixty_forty (nth_error (equity_curve r) 0) = Some 100%float.
Proof.
  apply (backtest_shape (lit "2026-11-04") series_sin series_cos linear_pow).
  - reflexivity.
  - intros x. reflexivity.
Defined.

(** ** Diagnostics *)

Section TestDatabaseFacts.

Variable getenv : str -> option str.

Let url_status : pyval :=
  VStr (if env_truthy getenv (lit "DATABASE_URL") then is_set else not_set).
Let name_status : pyval :=
  VStr (if env_truthy getenv (lit "DATABASE_NAME") then is_set else not_set).

(** No handle: only the [else] branch of the outer [try] runs. *)
Lemma test_database_no_handle :
  test_database None getenv =
  Ret [ (lit "backend", VStr (check_mark ++ lit " Running"));
        (lit "database",
         VStr (warning_sign ++ lit "  Available but not initialized"));
        (lit "database_url", url_status);
        (lit "database_name", name_status);
        (lit "connection_status", VStr (lit "Not Connected"));
        (lit "collections", VList []) ].
Proof. reflexivity. Qed.

(** The probe returned: its first ten names are reported. *)
Lemma test_database_probe_ok (d : Database) (collections : list str) :
  list_collection_names d = Ret collections ->
  test_database (Some d) getenv =
  Ret [ (lit "backend", VStr (check_mark ++ lit " Running"));
        (lit "database", VStr (check_mark ++ lit " Connected & Working"));
        (lit "database_url", url_status);
        (lit "database_name", name_status);
        (lit "connection_status", VStr (lit "Connected"));
        (lit "collections", VList (firstn 10 collections)) ].
Proof.
  intros Hok. unfold test_database, test_database_probe, try_except_action,
    then_, call, assign, modify. rewrite Hok. reflexivity.
Qed.

(** The probe raised: the inner handler overwrites the status, and the
    assignments made before the probe stay. *)
Lemma test_database_probe_raise (d : Database) (e : exn) :
  list_collection_names d = Raise e ->
  test_database (Some d) getenv =
  Ret [ (lit "backend", VStr (check_mark ++ lit " Running"));
        (lit "database",
         VStr (probe_error_prefix ++ slice_to 50 (exn_str e)));
        (lit "database_url", url_status);
        (lit "database_name", name_status);
        (lit "connection_status", VStr (lit "Connected"));
        (lit "collections", VList []) ].
Proof.
  intros Hraise. unfold test_database, test_database_probe, try_except_action,
    then_, call, assign, modify. rewrite Hraise. reflexivity.
Qed.

Lemma test_database_returns (db : option Database) :
  returns (test_database db getenv).
Proof.
  destruct db as [d |].
  - destruct (list_collection_names d) as [cs | e] eqn:Hprobe.
    + eexists. apply (test_database_probe_ok d cs Hprobe).
    + eexists. apply (test_database_probe_raise d e Hprobe).
  - eexists. apply test_database_no_handle.
Qed.

End TestDatabaseFacts.

Lemma length_slice_to (n : nat) (s : str) :
  (List.length (slice_to n s) <= n)%nat.
Proof. unfold slice_to. rewrite length_firstn. lia. Qed.

(** C8: the handler returns for every handle and environment; with no
    handle and neither [DATABASE_URL] nor [DATABASE_NAME] set, the
    response reports both [database_url] and [database_name] as the
    cross mark followed by [Not Set]. *)
Theorem test_database_never_raises
    (getenv : str -> option str)
    (Hurl : getenv (lit "DATABASE_URL") = None)
    (Hname : getenv (lit "DATABASE_NAME") = None) :
  (forall db getenv', returns (test_database db getenv')) /\
  exists r,
    test_database None getenv = Ret r /\
    dict_get r (lit "database_url")
      = Some (VStr (0x274C%N :: lit " Not Set")) /\
    dict_get r (lit "database_name")
      = Some (VStr (0x274C%N :: lit " Not Set")).
Proof.
  split; [intros db getenv'; apply test_database_returns |].
  eexists. split; [apply test_database_no_handle |].
  unfold env_truthy. rewrite Hurl, Hname. split; reflexivity.
Qed.

Lemma test_database_never_raises_witness :
  (forall db getenv', returns (test_database db getenv')) /\
  exists r,
    test_database None (fun _ => None) = Ret r /\
    dict_get r (lit "database_url")
      = Some (VStr (0x274C%N :: lit " Not Set")) /\
    dict_get r (lit "database_name")
      = Some (VStr (0x274C%N :: lit " Not Set")).
Proof.
  apply (test_database_never_raises (fun _ => None)); reflexivity.
Defined.

(** C3 (as amended): when the reachability probe raises, the handler
    returns, and the [database] field is the fixed 25-character prefix
    "(warning sign)  Connected but Error: " followed by the first 50
    characters at most of the exception's message; the field is at most
    75 characters long. *)
Theorem test_database_probe_failure_rendered
    (d : Database) (e : exn) (getenv : str -> option str)
    (Hprobe : list_collection_names d = Raise e) :
  exists r,
    test_database (Some d) getenv = Ret r /\
    exists shown,
      dict_get r (lit "database")
        = Some (VStr ([0x26A0%N; 0xFE0F%N] ++ lit "  Connected but Error: "
                        ++ shown)) /\
      shown = firstn 50 (exn_str e) /\
      len shown <= 50 /\
      len ([0x26A0%N; 0xFE0F%N] ++ lit "  Connected but Error: " ++ shown)
        <= 75.
Proof.
  eexists. split; [apply (test_database_probe_raise getenv d e Hprobe) |].
  exists (slice_to 50 (exn_str e)).
  pose proof (length_slice_to 50 (exn_str e)) as Hlen.
  split; [reflexivity |]. split; [reflexivity |].
  unfold len. rewrite !length_app. cbn [List.length lit map list_ascii_of_string].
  lia.
Qed.

Lemma test_database_probe_failure_rendered_witness :
  exists r,
    test_database (Some unreachable_db) (fun _ => None) = Ret r /\
    exists shown,
      dict_get r (lit "database")
        = Some (VStr ([0x26A0%N; 0xFE0F%N] ++ lit "  Connected but Error: "
                        ++ shown)) /\
      shown = firstn 50 (exn_str server_selection_timeout) /\
      len shown <= 50 /\
      len ([0x26A0%N; 0xFE0F%N] ++ lit "  Connected but Error: " ++ shown)
        <= 75.
Proof.
  apply (test_database_probe_failure_rendered unreachable_db
           server_selection_timeout (fun _ => None)).
  reflexivity.
Defined.

(** C3 as stated fails: with a 61-character message the [database]
    field holds 75 characters, more than 50. *)
Lemma test_database_probe_failure_longer_than_50 :
  list_collection_names unreachable_db = Raise server_selection_timeout /\
  exists r s,
    test_database (Some unreachable_db) (fun _ => None) = Ret r /\
    dict_get r (lit "database") = Some (VStr s) /\
    len s = 75 /\
    ~ len s <= 50.
Proof.
  split; [reflexivity |].
  eexists. eexists. split; [reflexivity |].
  split; [reflexivity |].
  split; [reflexivity |].
  vm_compute. intros Hle. now apply Hle.
Qed.

(** ** Backtest weights *)

Lemma max_float_zero_nonneg (x : float) :
  PrimFloat.leb 0 (max_float 0 x) = true.
Proof.
  unfold max_float. destruct (PrimFloat.ltb 0 x) eqn:Hpos.
  - now apply Binary64.ltb_leb.
  - reflexivity.
Qed.

Section UnitRange.

Variable s : float.
Hypothesis s_lower : PrimFloat.leb (-1) s = true.
Hypothesis s_upper : PrimFloat.leb s 1 = true.

Lemma w_spy_nonneg : PrimFloat.leb 0 (0.55 - 0.25 * s) = true.
Proof.
  eapply (Binary64.sub_scaled_nonneg 0.55 0.25);
    [ vm_compute; reflexivity | vm_compute; reflexivity | lia
    | vm_compute; discriminate | exact s_lower | exact s_upper ].
Qed.

Lemma w_ief_nonneg : PrimFloat.leb 0 (0.35 + 0.20 * s) = true.
Proof.
  eapply (Binary64.add_scaled_nonneg 0.35 0.20);
    [ vm_compute; reflexivity | vm_compute; reflexivity | lia
    | vm_compute; discriminate | exact s_lower | exact s_upper ].
Qed.

Lemma w_gld_nonneg : PrimFloat.leb 0 (0.10 + 0.10 * s) = true.
Proof.
  eapply (Binary64.add_scaled_nonneg 0.10 0.10);
    [ vm_compute; reflexivity | vm_compute; reflexivity | lia
    | vm_compute; discriminate | exact s_lower | exact s_upper ].
Qed.

End UnitRange.

(** The arguments handed to [math.sin] in the loop are finite. *)
Lemma backtest_angles_finite (i : Z) :
  In i (range 240) ->
  PrimFloat.is_finite (2 * pi * (float_of_int i / float_of_int 240)) = true /\
  PrimFloat.is_finite (4 * pi * (float_of_int i / float_of_int 240)) = true.
Proof.
  intros Hi. apply andb_prop.
  revert i Hi. apply forallb_forall. vm_compute. reflexivity.
Qed.

Lemma backtest_weights_nonneg sin cos (i : Z) :
  (forall x, PrimFloat.is_finite x = true ->
             PrimFloat.leb (-1) (sin x) = true /\
             PrimFloat.leb (sin x) 1 = true) ->
  In i (range 240) ->
  Forall (fun w => PrimFloat.leb 0 w = true)
    (values (backtest_weights sin cos 240 i)).
Proof.
  intros sin_range Hi.
  destruct (backtest_angles_finite i Hi) as [Hfin2 Hfin4].
  unfold backtest_weights. cbn [values map snd].
  repeat constructor.
  - apply w_spy_nonneg; now apply sin_range.
  - apply w_ief_nonneg; now apply sin_range.
  - apply w_gld_nonneg; now apply sin_range.
  - apply max_float_zero_nonneg.
  - apply max_float_zero_nonneg.
Qed.

Lemma series_sin_range (x : float) :
  PrimFloat.leb (-1) (series_sin x) = true /\
  PrimFloat.leb (series_sin x) 1 = true.
Proof.
  unfold series_sin, within_unit.
  set (p := (x - x * x * x / 6 + x * x * x * x * x / 120)%float).
  destruct (PrimFloat.leb (-1) p) eqn:Hlo;
    destruct (PrimFloat.leb p 1) eqn:Hhi; cbn [andb];
    split; assumption || reflexivity.
Qed.

(** C10: in every response each of the 240 weight mappings has the
    five keys SPY, IEF, GLD, DBC, SHY with nonnegative values, but the
    values do not always sum to 1: at index 0 they are 0.55, 0.35,
    0.10, 0.15 and 0, and their sum is strictly greater than 1.  The
    math library is assumed to keep [sin] between -1 and 1 on finite
    arguments and to return [sin 0 = 0] and [cos 0 = 1]. *)
Theorem backtest_weights_nonnegative_not_normalised
    today_iso sin cos pow
    (sin_range : forall x, PrimFloat.is_finite x = true ->
                           PrimFloat.leb (-1) (sin x) = true /\
                           PrimFloat.leb (sin x) 1 = true)
    (sin_zero : sin 0%float = 0%float)
    (cos_zero : cos 0%float = 1%float)
    (start end_ : option str) (benchmark : str) :
  let r := backtest today_iso sin cos pow start end_ benchmark in
  List.length (weights_over_time r) = 240%nat /\
  (forall w, In w (weights_over_time r) ->
     keys w = [lit "SPY"; lit "IEF"; lit "GLD"; lit "DBC"; lit "SHY"] /\
     Forall (fun v => PrimFloat.leb 0 v = true) (values w)) /\
  exists w0,
    nth_error (weights_over_time r) 0 = Some w0 /\
    w0 = [ (lit "SPY", 0.55%float); (lit "IEF", 0.35%float);
           (lit "GLD", 0.10%float); (lit "DBC", 0.15%float);
           (lit "SHY", 0%float) ] /\
    PrimFloat.ltb 1 (Py.sum (values w0)) = true.
Proof.
  cbv zeta. rewrite backtest_unfold. cbn [weights_over_time].
  split; [now rewrite length_map, length_range |].
  split.
  - intros w Hin. apply in_map_iff in Hin as (i & <- & Hi).
    split; [reflexivity | now apply backtest_weights_nonneg].
  - eexists. split; [reflexivity |].
    unfold backtest_weights.
    change (2 * pi * (float_of_int (Z.of_nat 0) / float_of_int 240))%float
      with 0%float.
    change (4 * pi * (float_of_int (Z.of_nat 0) / float_of_int 240))%float
      with 0%float.
    rewrite sin_zero, cos_zero. split; reflexivity.
Qed.

Lemma backtest_weights_nonnegative_not_normalised_witness :
  let r := backtest (lit "2026-11-04") series_sin series_cos linear_pow
             None (Some (lit "2020-01-01")) (lit "spy") in
  List.length (weights_over_time r) = 240%nat /\
  (forall w, In w (weights_over_time r) ->
     keys w = [lit "SPY"; lit "IEF"; lit "GLD"; lit "DBC"; lit "SHY"] /\
     Forall (fun v => PrimFloat.leb 0 v = true) (values w)) /\
  exists w0,
    nth_error (weights_over_time r) 0 = Some w0 /\
    w0 = [ (lit "SPY", 0.55%float); (lit "IEF", 0.35%float);
           (lit "GLD", 0.10%float); (lit "DBC", 0.15%float);
           (lit "SHY", 0%float) ] /\
    PrimFloat.ltb 1 (Py.sum (values w0)) = true.
Proof.
  apply (backtest_weights_nonnegative_not_normalised
           (lit "2026-11-04") series_sin series_cos linear_pow).
  - intros x _. apply series_sin_range.
  - reflexivity.
  - reflexivity.
Defined.

(** * Further properties *)

(** ** Order of binary64 numbers *)

Module Binary64Order.

Import Binary64.

Lemma leb_zero_nonneg (x : float) :
  PrimFloat.leb 0 x = true <-> SF_nonneg (Prim2SF x).
Proof.
  rewrite leb_spec, Prim2SF_zero.
  destruct (Prim2SF x) as [[|] | [|] | | [|] m e]; cbn;
    intuition discriminate.
Qed.



Lemma binary_normalize_SF_nonneg (m e : Z) :
  0 <= m -> SF_nonneg (binary_normalize prec emax m e false).
Proof.
  intros Hm. pose proof (binary_normalize_nonneg m e Hm) as Hle.
  destruct (binary_normalize _ _ _ _ _) as [[|] | [|] | | [|] m' e'];
    cbn in *; trivial; discriminate.
Qed.

Lemma SFadd_nonneg_closed (a b : spec_float) :
  SF_nonneg a -> SF_nonneg b -> SF_nonneg (SFadd prec emax a b).
Proof.
  destruct a as [[|] | [|] | | [|] ma ea]; cbn [SF_nonneg];
    try contradiction;
    destruct b as [[|] | [|] | | [|] mb eb]; cbn [SF_nonneg];
    try contradiction; intros _ _; cbn [SFadd SF_nonneg]; trivial;
    apply binary_normalize_SF_nonneg; cbn [cond_Zopp]; lia.
Qed.

Lemma add_nonneg (x y : float) :
  PrimFloat.leb 0 x = true -> PrimFloat.leb 0 y = true ->
  PrimFloat.leb 0 (x + y) = true.
Proof.
  rewrite !leb_zero_nonneg, add_spec. apply SFadd_nonneg_closed.
Qed.




Lemma shl_align_spec (mx : positive) (ex ex' : Z) :
  snd (shl_align mx ex ex') = Z.min ex ex' /\
  Z.pos (fst (shl_align mx ex ex'))
    = Z.pos mx * 2 ^ (ex - Z.min ex ex').
Proof.
  unfold shl_align.
  destruct (ex' - ex) as [| d | d] eqn:Hd; cbn [fst snd].
  - replace (Z.min ex ex') with ex by lia.
    rewrite Z.sub_diag. cbn. lia.
  - replace (Z.min ex ex') with ex by lia.
    rewrite Z.sub_diag. cbn. lia.
  - replace (Z.min ex ex') with ex' by lia.
    split; [reflexivity |]. rewrite pos_iter_xO. f_equal. f_equal. lia.
Qed.











(** *** Upper bounds *)

Lemma SF_below_leb (mb : positive) (eb : Z) (y : spec_float) :
  SF_below mb eb y -> SFleb y (S754_finite false mb eb) = true.
Proof.
  destruct y as [[|] | [|] | | [|] m e]; cbn [SF_below];
    try contradiction; try reflexivity.
  intros [He Hm]. unfold SFleb, SFcompare.
  destruct (Z.compare_spec e eb) as [-> | Hlt | Hgt];
    [| reflexivity | lia].
  rewrite Z.sub_diag in Hm. rewrite Pos.compare_cont_spec.
  cbn [Pos.switch_Eq].
  destruct (Pos.compare_spec m mb) as [Heq | Hlt | Hgt];
    [reflexivity | reflexivity | cbn in Hm; lia].
Qed.

Lemma at_most_below (mc : positive) (ec : Z) (y : spec_float) :
  at_most mc ec y -> SF_below mc ec y.
Proof.
  destruct y as [[|] | [|] | | [|] m e]; cbn [at_most SF_below]; tauto.
Qed.

Lemma binary_round_le (sx : bool) (m mb : positive) (e eb : Z) :
  canonical64 mb eb -> e <= eb ->
  Z.pos m <= Z.pos mb * 2 ^ (eb - e) ->
  match binary_round prec emax sx m e with
  | S754_zero s => s = sx
  | S754_finite s m' e' =>
      s = sx /\ e' <= eb /\ Z.pos m' <= Z.pos mb * 2 ^ (eb - e')
  | _ => False
  end.
Proof.
  intros [Hcanon Hmax] He Hm. unfold binary_round.
  change (SpecFloat.fexp prec emax) with fexp64.
  destruct (shl_align_spec m e (fexp64 (Z.pos (digits2_pos m) + e)))
    as [Hsnd Hfst].
  destruct (shl_align m e _) as [mz ez]. cbn [fst snd] in Hsnd, Hfst.
  rewrite <- Hsnd in Hfst.
  apply binary_round_aux_le; [exact Hcanon | exact Hmax | lia |].
  rewrite Hfst.
  replace (eb - ez) with ((eb - e) + (e - ez)) by lia.
  rewrite Z.pow_add_r by lia.
  assert (0 < 2 ^ (e - ez)) by (apply Z.pow_pos_nonneg; lia).
  nia.
Qed.

Lemma binary_normalize_below (z e : Z) (mb : positive) (eb : Z) :
  canonical64 mb eb -> e <= eb -> z <= Z.pos mb * 2 ^ (eb - e) ->
  SF_below mb eb (binary_normalize prec emax z e false).
Proof.
  intros Hcanon He Hz. destruct z as [| p | p]; cbn [binary_normalize].
  - exact I.
  - pose proof (binary_round_le false p mb e eb Hcanon He Hz) as Hr.
    destruct (binary_round _ _ _ _ _) as [s | s | | s m' e'];
      cbn [SF_below]; try contradiction; [trivial |].
    destruct Hr as (-> & He' & Hm'). now split.
  - unfold binary_round. destruct (shl_align p e _) as [mz ez].
    pose proof (binary_round_aux_sign true (Z.pos mz) ez ltac:(lia)) as Hr.
    destruct (binary_round_aux _ _ _ _ _ _) as [s | s | | s m' e'];
      cbn [SF_below]; try contradiction; subst; trivial.
Qed.

Section AffineBound.

(** A positive term [(ma, ea)], a factor [(mc, ec)] of smaller
    magnitude and a number [(mb, eb)] of the format not below the
    exact sum of the two. *)
Variables (ma mc mb : positive) (ea ec eb : Z).
Hypothesis bound_canonical : canonical64 mb eb.
Hypothesis exponents : ec <= ea <= eb.
Hypothesis magnitudes :
  Z.pos ma * 2 ^ (ea - ec) + Z.pos mc <= Z.pos mb * 2 ^ (eb - ec).

Lemma term_below : SF_below mb eb (S754_finite false ma ea).
Proof.
  cbn [SF_below]. split; [lia |].
  replace (eb - ec) with ((eb - ea) + (ea - ec)) in magnitudes by lia.
  rewrite Z.pow_add_r in magnitudes by lia.
  assert (0 < 2 ^ (ea - ec)) by (apply Z.pow_pos_nonneg; lia).
  assert (0 <= 2 ^ (eb - ea)) by (apply Z.pow_nonneg; lia).
  nia.
Qed.

Lemma aligned_bound (my : positive) (ey : Z) (sign : bool) :
  ey <= ec -> Z.pos my <= Z.pos mc * 2 ^ (ec - ey) ->
  Z.pos (fst (shl_align ma ea (Z.min ea ey)))
  + cond_Zopp sign (Z.pos (fst (shl_align my ey (Z.min ea ey))))
  <= Z.pos mb * 2 ^ (eb - Z.min ea ey).
Proof.
  intros Hey Hmy.
  rewrite !shl_align_value by lia.
  replace (Z.min ea ey) with ey by lia.
  rewrite Z.sub_diag.
  replace (ea - ey) with ((ea - ec) + (ec - ey)) by lia.
  replace (eb - ey) with ((eb - ec) + (ec - ey)) by lia.
  rewrite !Z.pow_add_r by lia.
  assert (0 < 2 ^ (ec - ey)) by (apply Z.pow_pos_nonneg; lia).
  assert (0 < 2 ^ (ea - ec)) by (apply Z.pow_pos_nonneg; lia).
  change (2 ^ 0) with 1.
  destruct sign; cbn [cond_Zopp]; nia.
Qed.

Lemma SFadd_below (y : spec_float) :
  at_most mc ec y ->
  SF_below mb eb (SFadd prec emax (S754_finite false ma ea) y).
Proof.
  intros Hy. destruct y as [sy | sy | | sy my ey]; cbn [at_most] in Hy;
    try contradiction; cbn [SFadd].
  - apply term_below.
  - destruct Hy as [Hey Hmy].
    apply binary_normalize_below; [exact bound_canonical | lia |].
    cbn [cond_Zopp]. apply (aligned_bound my ey sy Hey Hmy).
Qed.

Lemma SFsub_below (y : spec_float) :
  at_most mc ec y ->
  SF_below mb eb (SFsub prec emax (S754_finite false ma ea) y).
Proof.
  intros Hy. destruct y as [sy | sy | | sy my ey]; cbn [at_most] in Hy;
    try contradiction; cbn [SFsub].
  - apply term_below.
  - destruct Hy as [Hey Hmy].
    apply binary_normalize_below; [exact bound_canonical | lia |].
    pose proof (aligned_bound my ey (negb sy) Hey Hmy) as Hb.
    cbn [cond_Zopp]. destruct sy; cbn [negb cond_Zopp] in *; lia.
Qed.

End AffineBound.

(** A positive number minus a nonnegative one stays below it. *)
Lemma SFsub_nonneg_below (ma : positive) (ea : Z) (y : spec_float) :
  canonical64 ma ea -> SF_nonneg y ->
  SF_below ma ea (SFsub prec emax (S754_finite false ma ea) y).
Proof.
  intros Hcanon Hy.
  assert (Hself : SF_below ma ea (S754_finite false ma ea)).
  { cbn [SF_below]. split; [lia |]. rewrite Z.sub_diag. cbn. lia. }
  destruct y as [[|] | [|] | | [|] my ey]; cbn [SF_nonneg] in Hy;
    try contradiction; cbn [SFsub negb SF_below]; trivial.
  apply binary_normalize_below; [exact Hcanon | lia |].
  cbn [cond_Zopp]. rewrite shl_align_value by lia.
  assert (0 < Z.pos (fst (shl_align my ey (Z.min ea ey)))) by lia.
  lia.
Qed.

Section AffineBoundFloat.

Variables (a c bound : float) (sc : bool) (ma mc mb : positive)
          (ea ec eb : Z).
Hypothesis a_finite : Prim2SF a = S754_finite false ma ea.
Hypothesis c_finite : Prim2SF c = S754_finite sc mc ec.
Hypothesis bound_finite : Prim2SF bound = S754_finite false mb eb.
Hypothesis exponents : ec <= ea <= eb.
Hypothesis magnitudes :
  Z.pos ma * 2 ^ (ea - ec) + Z.pos mc <= Z.pos mb * 2 ^ (eb - ec).

Variable s : float.
Hypothesis s_lower : PrimFloat.leb (-1) s = true.
Hypothesis s_upper : PrimFloat.leb s 1 = true.

Lemma bound_canonical64 : canonical64 mb eb.
Proof.
  apply (valid_binary_canonical64 false). rewrite <- bound_finite.
  apply Prim2SF_valid.
Qed.

Lemma add_scaled_le : PrimFloat.leb (a + c * s) bound = true.
Proof.
  rewrite leb_spec, add_spec, a_finite, bound_finite.
  apply SF_below_leb.
  apply (SFadd_below ma mc mb ea ec eb bound_canonical64 exponents
           magnitudes).
  exact (product_at_most c sc mc ec c_finite s s_lower s_upper).
Qed.

Lemma sub_scaled_le : PrimFloat.leb (a - c * s) bound = true.
Proof.
  rewrite leb_spec, sub_spec, a_finite, bound_finite.
  apply SF_below_leb.
  apply (SFsub_below ma mc mb ea ec eb bound_canonical64 exponents
           magnitudes).
  exact (product_at_most c sc mc ec c_finite s s_lower s_upper).
Qed.

End AffineBoundFloat.

Lemma mul_scaled_le (c : float) (mc : positive) (ec : Z) (s : float) :
  Prim2SF c = S754_finite false mc ec ->
  PrimFloat.leb (-1) s = true -> PrimFloat.leb s 1 = true ->
  PrimFloat.leb (c * s) c = true.
Proof.
  intros Hc Hlo Hhi. rewrite leb_spec, Hc.
  apply SF_below_leb, at_most_below.
  exact (product_at_most c false mc ec Hc s Hlo Hhi).
Qed.

Lemma sub_nonneg_le (a : float) (ma : positive) (ea : Z) (y : float) :
  Prim2SF a = S754_finite false ma ea ->
  PrimFloat.leb 0 y = true ->
  PrimFloat.leb (a - y) a = true.
Proof.
  intros Ha Hy. rewrite leb_spec, sub_spec. rewrite !Ha.
  apply SF_below_leb, SFsub_nonneg_below.
  - apply (valid_binary_canonical64 false). rewrite <- Ha.
    apply Prim2SF_valid.
  - now apply leb_zero_nonneg.
Qed.


(** Reading an upper bound back from a comparison, and weakening it. *)
Lemma SFleb_below (y : spec_float) (mc : positive) (ec : Z) :
  valid_binary y = true ->
  Z.pos (digits2_pos mc) = 53 ->
  SFleb y (S754_finite false mc ec) = true ->
  SF_below mc ec y.
Proof.
  intros Hvalid Hdigits Hle.
  destruct y as [[|] | [|] | | [|] m e]; cbn [SF_below]; trivial;
    try (cbn in Hle; discriminate).
  apply valid_binary_canonical64 in Hvalid as [Hcanon _].
  pose proof (digits2_pos_bounds m) as [_ Hm].
  pose proof (digits2_pos_bounds mc) as [Hmc _].
  rewrite Hdigits in Hmc. unfold fexp64 in Hcanon.
  apply SFleb_finite_pos in Hle as [Hlt | [-> Hle]].
  - split; [lia |].
    assert (Hd : 2 ^ Z.pos (digits2_pos m) <= 2 ^ 53)
      by (apply Z.pow_le_mono_r; lia).
    assert (Hshift : 2 ^ 1 <= 2 ^ (ec - e))
      by (apply Z.pow_le_mono_r; lia).
    change (2 ^ (53 - 1)) with 4503599627370496 in Hmc.
    change (2 ^ 53) with 9007199254740992 in Hd.
    change (2 ^ 1) with 2 in Hshift. nia.
  - split; [lia |]. rewrite Z.sub_diag. cbn. lia.
Qed.

Lemma SF_below_mono (y : spec_float) (mc mb : positive) (ec eb : Z) :
  ec <= eb -> Z.pos mc <= Z.pos mb * 2 ^ (eb - ec) ->
  SF_below mc ec y -> SF_below mb eb y.
Proof.
  intros He Hm. destruct y as [[|] | [|] | | [|] m e]; cbn [SF_below];
    trivial. intros [Hey Hmy]. split; [lia |].
  replace (eb - e) with ((eb - ec) + (ec - e)) by lia.
  rewrite Z.pow_add_r by lia.
  assert (0 < 2 ^ (ec - e)) by (apply Z.pow_pos_nonneg; lia).
  nia.
Qed.

(** [x <= c] and [c <= bound] for two normal constants. *)
Lemma leb_le_constant (x c bound : float) (mc mb : positive) (ec eb : Z) :
  Prim2SF c = S754_finite false mc ec ->
  Prim2SF bound = S754_finite false mb eb ->
  Z.pos (digits2_pos mc) = 53 ->
  ec <= eb -> Z.pos mc <= Z.pos mb * 2 ^ (eb - ec) ->
  PrimFloat.leb x c = true -> PrimFloat.leb x bound = true.
Proof.
  intros Hc Hb Hdigits He Hm. rewrite !leb_spec, Hc, Hb. intros Hle.
  apply SF_below_leb, (SF_below_mono _ mc mb ec eb He Hm).
  apply SFleb_below; [apply Prim2SF_valid | exact Hdigits | exact Hle].
Qed.

End Binary64Order.


(** ** More on the stress test *)

Import Binary64Order.






(** X1: the handler stores exactly one document, the request's name
    and assumptions in collection [scenario], and hands back the
    identifier it was given; nothing else of the store matters. *)
Theorem stress_test_persists_request
    (create_document : str -> ScenarioDocument -> outcome str)
    (req : ScenarioRequest) (id : str)
    (Hstored : create_document (lit "scenario")
                 (mkScenarioDocument (name req) (assumptions req)) = Ret id) :
  (exists r, stress_test create_document req = Ret r /\
             scenario_id r = Some id) /\
  forall create_document',
    create_document' (lit "scenario")
      (mkScenarioDocument (name req) (assumptions req)) = Ret id ->
    stress_test create_document' req = stress_test create_document req.
Proof.
  split.
  - eexists. split; [apply stress_test_returns |]. now rewrite Hstored.
  - intros cd' Hcd'. rewrite !stress_test_returns. now rewrite Hstored, Hcd'.
Qed.

Lemma stress_test_persists_request_witness :
  (exists r, stress_test recording_store rates_shock = Ret r /\
             scenario_id r = Some (lit "65f1c0de-scenario")) /\
  forall create_document',
    create_document' (lit "scenario")
      (mkScenarioDocument (name rates_shock) (assumptions rates_shock))
      = Ret (lit "65f1c0de-scenario") ->
    stress_test create_document' rates_shock
    = stress_test recording_store rates_shock.
Proof.
  apply (stress_test_persists_request recording_store rates_shock
           (lit "65f1c0de-scenario")).
  reflexivity.
Defined.







(** ** More on the backtest *)

Lemma max_float_zero_le (x bound : float) :
  PrimFloat.leb 0 bound = true ->
  PrimFloat.leb x bound = true ->
  PrimFloat.leb (max_float 0 x) bound = true.
Proof.
  intros H0 Hx. unfold max_float. now destruct (PrimFloat.ltb 0 x).
Qed.

Section UnitRangeBounds.

Variable s : float.
Hypothesis s_lower : PrimFloat.leb (-1) s = true.
Hypothesis s_upper : PrimFloat.leb s 1 = true.

Lemma w_spy_le : PrimFloat.leb (0.55 - 0.25 * s) 0.8 = true.
Proof.
  eapply (sub_scaled_le 0.55 0.25 0.8);
    [ vm_compute; reflexivity | vm_compute; reflexivity
    | vm_compute; reflexivity | lia | vm_compute; discriminate
    | exact s_lower | exact s_upper ].
Qed.

Lemma w_ief_le : PrimFloat.leb (0.35 + 0.20 * s) 0.55 = true.
Proof.
  eapply (add_scaled_le 0.35 0.20 0.55);
    [ vm_compute; reflexivity | vm_compute; reflexivity
    | vm_compute; reflexivity | lia | vm_compute; discriminate
    | exact s_lower | exact s_upper ].
Qed.

Lemma w_gld_le : PrimFloat.leb (0.10 + 0.10 * s) 0.2 = true.
Proof.
  eapply (add_scaled_le 0.10 0.10 0.2);
    [ vm_compute; reflexivity | vm_compute; reflexivity
    | vm_compute; reflexivity | lia | vm_compute; discriminate
    | exact s_lower | exact s_upper ].
Qed.

Lemma w_dbc_le : PrimFloat.leb (max_float 0 (0.15 * s)) 0.15 = true.
Proof.
  apply max_float_zero_le; [reflexivity |].
  eapply mul_scaled_le; [vm_compute; reflexivity | exact s_lower | exact s_upper].
Qed.

End UnitRangeBounds.

Lemma w_shy_le (total : float) :
  PrimFloat.leb 0 total = true ->
  PrimFloat.leb (max_float 0 (1 - total)) 1 = true.
Proof.
  intros Htotal. apply max_float_zero_le; [reflexivity |].
  eapply sub_nonneg_le; [vm_compute; reflexivity | exact Htotal].
Qed.

Lemma le_one (x c : float) (mc : positive) (ec : Z) :
  Prim2SF c = S754_finite false mc ec ->
  Z.pos (digits2_pos mc) = 53 ->
  ec <= -52 -> Z.pos mc <= 4503599627370496 * 2 ^ (-52 - ec) ->
  PrimFloat.leb x c = true -> PrimFloat.leb x 1 = true.
Proof.
  intros Hc Hdigits He Hm.
  exact (leb_le_constant x c 1 mc 4503599627370496 ec (-52) Hc
           Binary64.Prim2SF_one Hdigits He Hm).
Qed.

(** The five weights of one iteration and their ranges. *)
Lemma backtest_weights_bounds sin cos (i : Z) :
  unit_range sin -> unit_range cos -> In i (range 240) ->
  exists spy ief gld dbc shy,
    backtest_weights sin cos 240 i
    = [ (lit "SPY", spy); (lit "IEF", ief); (lit "GLD", gld);
        (lit "DBC", dbc); (lit "SHY", shy) ] /\
    (PrimFloat.leb 0 spy = true /\ PrimFloat.leb spy 0.8 = true) /\
    (PrimFloat.leb 0 ief = true /\ PrimFloat.leb ief 0.55 = true) /\
    (PrimFloat.leb 0 gld = true /\ PrimFloat.leb gld 0.2 = true) /\
    (PrimFloat.leb 0 dbc = true /\ PrimFloat.leb dbc 0.15 = true) /\
    (PrimFloat.leb 0 shy = true /\ PrimFloat.leb shy 1 = true).
Proof.
  intros sin_range cos_range Hi.
  destruct (backtest_angles_finite i Hi) as [Hfin2 Hfin4].
  destruct (sin_range _ Hfin2) as [Hs2lo Hs2hi].
  destruct (sin_range _ Hfin4) as [Hs4lo Hs4hi].
  destruct (cos_range _ Hfin2) as [Hc2lo Hc2hi].
  unfold backtest_weights. do 5 eexists. split; [reflexivity |].
  pose proof (w_spy_nonneg _ Hs2lo Hs2hi) as Hspy.
  pose proof (w_ief_nonneg _ Hs2lo Hs2hi) as Hief.
  pose proof (w_gld_nonneg _ Hs4lo Hs4hi) as Hgld.
  pose proof (max_float_zero_nonneg
                (0.15 * cos (2 * pi * (float_of_int i / float_of_int 240)))%float)
    as Hdbc.
  repeat split; try assumption.
  - now apply w_spy_le.
  - now apply w_ief_le.
  - now apply w_gld_le.
  - now apply w_dbc_le.
  - apply max_float_zero_nonneg.
  - apply w_shy_le.
    apply add_nonneg; [apply add_nonneg; [apply add_nonneg |] |];
      assumption.
Qed.

Lemma backtest_weights_fractions sin cos (i : Z) :
  unit_range sin -> unit_range cos -> In i (range 240) ->
  Forall (fun kv => fraction (snd kv)) (backtest_weights sin cos 240 i).
Proof.
  intros sin_range cos_range Hi.
  destruct (backtest_weights_bounds sin cos i sin_range cos_range Hi)
    as (spy & ief & gld & dbc & shy & -> & [Hs0 Hs1] & [Hi0 Hi1]
        & [Hg0 Hg1] & [Hd0 Hd1] & Hshy).
  repeat constructor; cbn [snd]; try assumption.
  - eapply (le_one spy 0.8); [vm_compute; reflexivity | reflexivity | lia
                             | vm_compute; discriminate | exact Hs1].
  - eapply (le_one ief 0.55); [vm_compute; reflexivity | reflexivity | lia
                              | vm_compute; discriminate | exact Hi1].
  - eapply (le_one gld 0.2); [vm_compute; reflexivity | reflexivity | lia
                             | vm_compute; discriminate | exact Hg1].
  - eapply (le_one dbc 0.15); [vm_compute; reflexivity | reflexivity | lia
                              | vm_compute; discriminate | exact Hd1].
  - apply Hshy.
  - apply Hshy.
Qed.

(** X5: every weight of every mapping is a fraction: SPY lies between
    0 and 0.8, IEF between 0 and 0.55, GLD between 0 and 0.2, DBC
    between 0 and 0.15 and SHY between 0 and 1.  The math library is
    assumed to keep [sin] and [cos] between -1 and 1 on finite
    arguments. *)
Theorem backtest_weights_are_fractions
    today_iso sin cos pow
    (sin_range : unit_range sin) (cos_range : unit_range cos)
    (start end_ : option str) (benchmark : str) :
  let r := backtest today_iso sin cos pow start end_ benchmark in
  forall w, In w (weights_over_time r) ->
    exists spy ief gld dbc shy,
      w = [ (lit "SPY", spy); (lit "IEF", ief); (lit "GLD", gld);
            (lit "DBC", dbc); (lit "SHY", shy) ] /\
      (PrimFloat.leb 0 spy = true /\ PrimFloat.leb spy 0.8 = true) /\
      (PrimFloat.leb 0 ief = true /\ PrimFloat.leb ief 0.55 = true) /\
      (PrimFloat.leb 0 gld = true /\ PrimFloat.leb gld 0.2 = true) /\
      (PrimFloat.leb 0 dbc = true /\ PrimFloat.leb dbc 0.15 = true) /\
      (PrimFloat.leb 0 shy = true /\ PrimFloat.leb shy 1 = true).
Proof.
  cbv zeta. rewrite backtest_unfold. cbn [weights_over_time].
  intros w Hin. apply in_map_iff in Hin as (i & <- & Hi).
  now apply backtest_weights_bounds.
Qed.

Lemma series_cos_range : unit_range series_cos.
Proof.
  intros x _. unfold series_cos, within_unit.
  set (p := (1 - x * x / 2 + x * x * x * x / 24)%float).
  destruct (PrimFloat.leb (-1) p) eqn:Hlo;
    destruct (PrimFloat.leb p 1) eqn:Hhi; cbn [andb];
    split; assumption || reflexivity.
Qed.

Lemma series_sin_unit_range : unit_range series_sin.
Proof. intros x _. apply series_sin_range. Qed.

Lemma backtest_weights_are_fractions_witness :
  unit_range series_sin /\ unit_range series_cos /\
  let r := backtest (lit "2026-11-04") series_sin series_cos linear_pow
             None None (lit "60_40") in
  forall w, In w (weights_over_time r) ->
    exists spy ief gld dbc shy,
      w = [ (lit "SPY", spy); (lit "IEF", ief); (lit "GLD", gld);
            (lit "DBC", dbc); (lit "SHY", shy) ] /\
      (PrimFloat.leb 0 spy = true /\ PrimFloat.leb spy 0.8 = true) /\
      (PrimFloat.leb 0 ief = true /\ PrimFloat.leb ief 0.55 = true) /\
      (PrimFloat.leb 0 gld = true /\ PrimFloat.leb gld 0.2 = true) /\
      (PrimFloat.leb 0 dbc = true /\ PrimFloat.leb dbc 0.15 = true) /\
      (PrimFloat.leb 0 shy = true /\ PrimFloat.leb shy 1 = true).
Proof.
  split; [exact series_sin_unit_range |].
  split; [exact series_cos_range |].
  apply (backtest_weights_are_fractions (lit "2026-11-04")
           series_sin series_cos linear_pow).
  - exact series_sin_unit_range.
  - exact series_cos_range.
Defined.

Lemma str_ltb_irrefl (a : str) : str_ltb a a = false.
Proof.
  induction a as [| x a IH]; [reflexivity |].
  cbn [str_ltb]. now rewrite N.ltb_irrefl, N.eqb_refl.
Qed.

Lemma in_range (n i : nat) : (i < n)%nat -> In (Z.of_nat i) (range n).
Proof.
  intros Hi. unfold range. apply in_map, in_seq. lia.
Qed.

Lemma date_labels_increasing (i j : nat) :
  (i < j)%nat -> (j < 240)%nat ->
  str_ltb (date_label (Z.of_nat i)) (date_label (Z.of_nat j)) = true.
Proof.
  intros Hij Hj.
  assert (Htable :
    forallb (fun a =>
      forallb (fun b =>
        implb (a <? b) (str_ltb (date_label a) (date_label b)))
        (range 240)) (range 240) = true)
    by (vm_compute; reflexivity).
  rewrite forallb_forall in Htable.
  specialize (Htable (Z.of_nat i) (in_range 240 i ltac:(lia))).
  rewrite forallb_forall in Htable.
  specialize (Htable (Z.of_nat j) (in_range 240 j Hj)).
  destruct (Z.ltb_spec (Z.of_nat i) (Z.of_nat j)); [exact Htable | lia].
Qed.

(** X6: the equity curve is in chronological order: the date of an
    earlier point is strictly before (as a string) the date of a later
    one, so no date occurs twice. *)
Theorem backtest_dates_increasing
    today_iso sin cos pow (start end_ : option str) (benchmark : str)
    (i j : nat) (p q : BacktestPoint)
    (Hij : (i < j)%nat)
    (Hp : nth_error
            (equity_curve
               (backtest today_iso sin cos pow start end_ benchmark)) i
          = Some p)
    (Hq : nth_error
            (equity_curve
               (backtest today_iso sin cos pow start end_ benchmark)) j
          = Some q) :
  str_ltb (date p) (date q) = true /\ date p <> date q.
Proof.
  assert (Hj : (j < 240)%nat).
  { assert (Hsome : nth_error
      (equity_curve (backtest today_iso sin cos pow start end_ benchmark)) j
      <> None) by congruence.
    apply nth_error_Some in Hsome.
    rewrite backtest_unfold in Hsome. cbn [equity_curve] in Hsome.
    now rewrite length_map, length_range in Hsome. }
  rewrite backtest_equity_nth in Hp, Hq by lia.
  injection Hp as <-. injection Hq as <-.
  rewrite !backtest_point_date by lia.
  pose proof (date_labels_increasing i j Hij Hj) as Hlt.
  split; [exact Hlt |].
  intros Heq. rewrite Heq, str_ltb_irrefl in Hlt. discriminate.
Qed.

Lemma backtest_dates_increasing_witness :
  str_ltb (date (backtest_point series_sin linear_pow 240 11))
          (date (backtest_point series_sin linear_pow 240 12)) = true /\
  date (backtest_point series_sin linear_pow 240 11)
  <> date (backtest_point series_sin linear_pow 240 12).
Proof.
  apply (backtest_dates_increasing (lit "2026-11-04")
           series_sin series_cos linear_pow None None (lit "60_40")
           11 12).
  - lia.
  - reflexivity.
  - reflexivity.
Defined.

(** ** Schemas *)

Lemma weight_ok_fraction (w : float) :
  Schemas.weight_ok w = true <-> fraction w.
Proof.
  unfold Schemas.weight_ok, fraction. apply andb_true_iff.
Qed.

Lemma new_holdings_some (items : list (str * float)) :
  Forall (fun kv => fraction (snd kv)) items ->
  exists hs, Schemas.new_holdings items = Some hs.
Proof.
  induction 1 as [| [s w] items Hw _ [hs IH]]; cbn [Schemas.new_holdings].
  - now eexists.
  - unfold Schemas.new_PortfolioHolding.
    apply weight_ok_fraction in Hw. cbn [snd] in Hw.
    rewrite Hw, IH. now eexists.
Qed.

Lemma new_holdings_sound (items : list (str * float)) :
  forall hs, Schemas.new_holdings items = Some hs ->
    map holding_item hs = items /\
    Forall (fun kv => fraction (snd kv)) items.
Proof.
  induction items as [| [s w] items IH]; cbn [Schemas.new_holdings]; intros hs Hhs.
  - injection Hhs as <-. split; [reflexivity | constructor].
  - unfold Schemas.new_PortfolioHolding in Hhs.
    destruct (Schemas.weight_ok w) eqn:Hw; [| discriminate].
    destruct (Schemas.new_holdings items) as [hs' |]; [| discriminate].
    injection Hhs as <-. destruct (IH hs' eq_refl) as [Hmap Hall].
    split.
    + cbn [map holding_item Schemas.symbol Schemas.weight]. now rewrite Hmap.
    + constructor; [now apply weight_ok_fraction | exact Hall].
Qed.

Lemma new_Portfolio_some (nm : str) (ow : option str)
    (items : list (str * float)) :
  Forall (fun kv => fraction (snd kv)) items ->
  exists p, Schemas.new_Portfolio nm ow (Some items) = Some p.
Proof.
  intros Hall. unfold Schemas.new_Portfolio.
  destruct (new_holdings_some items Hall) as [hs ->]. now eexists.
Qed.

(** X7: a portfolio is accepted exactly when every holding's weight
    lies between 0 and 1 (a NaN weight is refused); an accepted
    portfolio keeps the name, the owner and the holdings in order, and
    a portfolio built without holdings has none. *)
Theorem new_Portfolio_accepts_fractions
    (nm : str) (ow : option str) (items : list (str * float)) :
  ((exists p, Schemas.new_Portfolio nm ow (Some items) = Some p) <->
   Forall (fun kv => fraction (snd kv)) items) /\
  (forall p, Schemas.new_Portfolio nm ow (Some items) = Some p ->
     Schemas.name p = nm /\ Schemas.owner p = ow /\
     map holding_item (Schemas.holdings p) = items) /\
  (forall s, Schemas.new_Portfolio nm ow (Some [(s, PrimFloat.nan)]) = None) /\
  Schemas.new_Portfolio nm ow None = Some (Schemas.mkPortfolio nm ow []).
Proof.
  split; [| split; [| split; reflexivity]].
  - split; [| apply new_Portfolio_some].
    intros [p Hp]. unfold Schemas.new_Portfolio in Hp.
    destruct (Schemas.new_holdings items) as [hs |] eqn:Hhs; [| discriminate].
    now apply new_holdings_sound in Hhs.
  - intros p Hp. unfold Schemas.new_Portfolio in Hp.
    destruct (Schemas.new_holdings items) as [hs |] eqn:Hhs; [| discriminate].
    injection Hp as <-. cbn [Schemas.name Schemas.owner Schemas.holdings].
    apply new_holdings_sound in Hhs. tauto.
Qed.

(** X8: every allocation the API returns is an acceptable portfolio
    over the same five tickers: the regime snapshot's weights, the
    stress test's weights and each of the backtest's weight mappings;
    the benchmark weights are acceptable too.  The math library is
    assumed to keep [sin] and [cos] between -1 and 1 on finite
    arguments. *)
Theorem allocations_are_portfolios
    today_iso sin cos pow
    (sin_range : unit_range sin) (cos_range : unit_range cos)
    (create_document : str -> ScenarioDocument -> outcome str)
    (req : ScenarioRequest)
    (start end_ : option str) (benchmark : str)
    (nm : str) (ow : option str) :
  let accepted w := exists p, Schemas.new_Portfolio nm ow (Some w) = Some p in
  (keys (rn_weights (regime_now today_iso)) = tickers /\
   accepted (rn_weights (regime_now today_iso))) /\
  accepted (benchmark_weights (regime_now today_iso)) /\
  (forall r, stress_test create_document req = Ret r ->
             keys (weights r) = tickers /\ accepted (weights r)) /\
  (forall w,
     In w (weights_over_time
             (backtest today_iso sin cos pow start end_ benchmark)) ->
     keys w = tickers /\ accepted w).
Proof.
  cbv zeta.
  split; [split; [reflexivity | apply new_Portfolio_some; repeat constructor] |].
  split; [apply new_Portfolio_some; repeat constructor |].
  split.
  - intros r Hr. rewrite stress_test_returns in Hr. injection Hr as <-.
    split; [reflexivity | apply new_Portfolio_some; repeat constructor].
  - intros w Hin. rewrite backtest_unfold in Hin.
    cbn [weights_over_time] in Hin.
    apply in_map_iff in Hin as (i & <- & Hi).
    split; [reflexivity |].
    now apply new_Portfolio_some, backtest_weights_fractions.
Qed.

Lemma allocations_are_portfolios_witness :
  let accepted w :=
    exists p, Schemas.new_Portfolio (lit "shadow") None (Some w) = Some p in
  (keys (rn_weights (regime_now (lit "2026-11-04"))) = tickers /\
   accepted (rn_weights (regime_now (lit "2026-11-04")))) /\
  accepted (benchmark_weights (regime_now (lit "2026-11-04"))) /\
  (forall r, stress_test unreachable_store rates_shock = Ret r ->
             keys (weights r) = tickers /\ accepted (weights r)) /\
  (forall w,
     In w (weights_over_time
             (backtest (lit "2026-11-04") series_sin series_cos linear_pow
                None None (lit "60_40"))) ->
     keys w = tickers /\ accepted w).
Proof.
  apply (allocations_are_portfolios (lit "2026-11-04")
           series_sin series_cos linear_pow).
  - exact series_sin_unit_range.
  - exact series_cos_range.
Defined.

(** ** More on the diagnostics *)

Lemma presence_status_truthy (getenv : str -> option str) (k : str) :
  VStr (if env_truthy getenv k then is_set else not_set)
  = presence_status (getenv k).
Proof.
  unfold env_truthy, presence_status.
  destruct (getenv k) as [[| c v] |]; reflexivity.
Qed.

(** X9: when the probe succeeds the response lists the first ten
    collection names at most, in the probe's order (all of them when
    there are ten or fewer), and reports a working connection. *)
Theorem test_database_lists_first_ten
    (d : Database) (collections : list str) (getenv : str -> option str)
    (Hprobe : list_collection_names d = Ret collections) :
  exists r shown,
    test_database (Some d) getenv = Ret r /\
    dict_get r (lit "collections") = Some (VList shown) /\
    shown = firstn 10 collections /\
    (List.length shown <= 10)%nat /\
    ((List.length collections <= 10)%nat -> shown = collections) /\
    dict_get r (lit "database")
      = Some (VStr (0x2705%N :: lit " Connected & Working")) /\
    dict_get r (lit "connection_status") = Some (VStr (lit "Connected")).
Proof.
  eexists. exists (firstn 10 collections).
  split; [apply (test_database_probe_ok getenv d collections Hprobe) |].
  split; [reflexivity |]. split; [reflexivity |].
  split; [rewrite length_firstn; lia |].
  split; [apply firstn_all2 | split; reflexivity].
Qed.

Lemma test_database_lists_first_ten_witness :
  exists r shown,
    test_database (Some reachable_db) (fun _ => None) = Ret r /\
    dict_get r (lit "collections") = Some (VList shown) /\
    shown = firstn 10 (map (fun i => lit "collection_" ++ str_of_int i)
                         (range 12)) /\
    (List.length shown <= 10)%nat /\
    ((List.length (map (fun i => lit "collection_" ++ str_of_int i)
                     (range 12)) <= 10)%nat ->
     shown = map (fun i => lit "collection_" ++ str_of_int i) (range 12)) /\
    dict_get r (lit "database")
      = Some (VStr (0x2705%N :: lit " Connected & Working")) /\
    dict_get r (lit "connection_status") = Some (VStr (lit "Connected")).
Proof.
  apply (test_database_lists_first_ten reachable_db _ (fun _ => None)).
  reflexivity.
Defined.

(** X10: the response tells only whether [DATABASE_URL] and
    [DATABASE_NAME] are set to a non-empty value: their values, and
    the name of the database handle, never reach it. *)
Theorem test_database_reports_presence_only
    (db : option Database) (getenv : str -> option str) :
  (exists r,
     test_database db getenv = Ret r /\
     dict_get r (lit "database_url")
       = Some (presence_status (getenv (lit "DATABASE_URL"))) /\
     dict_get r (lit "database_name")
       = Some (presence_status (getenv (lit "DATABASE_NAME")))) /\
  (forall getenv',
     presence_status (getenv' (lit "DATABASE_URL"))
       = presence_status (getenv (lit "DATABASE_URL")) ->
     presence_status (getenv' (lit "DATABASE_NAME"))
       = presence_status (getenv (lit "DATABASE_NAME")) ->
     test_database db getenv' = test_database db getenv) /\
  (forall n n' probe,
     test_database (Some (mkDatabase n probe)) getenv
     = test_database (Some (mkDatabase n' probe)) getenv).
Proof.
  split; [| split].
  - destruct db as [d |];
      [destruct (list_collection_names d) as [cs | e] eqn:Hprobe |];
      eexists;
      (split;
       [ first [ apply (test_database_probe_ok getenv d cs Hprobe)
               | apply (test_database_probe_raise getenv d e Hprobe)
               | apply test_database_no_handle ]
       | cbn [dict_get];
         rewrite !presence_status_truthy; split; reflexivity ]).
  - intros getenv' Hurl Hname.
    destruct db as [d |];
      [destruct (list_collection_names d) as [cs | e] eqn:Hprobe |].
    + rewrite (test_database_probe_ok getenv d cs Hprobe),
        (test_database_probe_ok getenv' d cs Hprobe).
      now rewrite !presence_status_truthy, Hurl, Hname.
    + rewrite (test_database_probe_raise getenv d e Hprobe),
        (test_database_probe_raise getenv' d e Hprobe).
      now rewrite !presence_status_truthy, Hurl, Hname.
    + rewrite !test_database_no_handle.
      now rewrite !presence_status_truthy, Hurl, Hname.
  - intros n n' [cs | e].
    + now rewrite (test_database_probe_ok getenv (mkDatabase n (Ret cs)) cs),
        (test_database_probe_ok getenv (mkDatabase n' (Ret cs)) cs).
    + now rewrite
        (test_database_probe_raise getenv (mkDatabase n (Raise e)) e),
        (test_database_probe_raise getenv (mkDatabase n' (Raise e)) e).
Qed.

(** X11: the response always has the same six keys in the same order
    and reports the backend as running; its [database] field is never
    the initial "not available" text; without a handle it reads
    "available but not initialized" with no connection and no
    collections; with a handle the connection is reported even when
    the probe fails, and a failed probe leaves the collections empty. *)
Theorem test_database_shape
    (db : option Database) (getenv : str -> option str) :
  exists r,
    test_database db getenv = Ret r /\
    keys r = [ lit "backend"; lit "database"; lit "database_url";
               lit "database_name"; lit "connection_status";
               lit "collections" ] /\
    dict_get r (lit "backend") = Some (VStr (0x2705%N :: lit " Running")) /\
    dict_get r (lit "database")
      <> Some (VStr (0x274C%N :: lit " Not Available")) /\
    (db = None ->
       dict_get r (lit "database")
         = Some (VStr ([0x26A0%N; 0xFE0F%N]
                         ++ lit "  Available but not initialized")) /\
       dict_get r (lit "connection_status")
         = Some (VStr (lit "Not Connected")) /\
       dict_get r (lit "collections") = Some (VList [])) /\
    (forall d, db = Some d ->
       dict_get r (lit "connection_status") = Some (VStr (lit "Connected")) /\
       (forall e, list_collection_names d = Raise e ->
                  dict_get r (lit "collections") = Some (VList []))).
Proof.
  destruct db as [d |];
    [destruct (list_collection_names d) as [cs | e] eqn:Hprobe |];
    eexists;
    (split;
     [ first [ apply (test_database_probe_ok getenv d cs Hprobe)
             | apply (test_database_probe_raise getenv d e Hprobe)
             | apply test_database_no_handle ] |]);
    (split; [reflexivity |]); (split; [reflexivity |]);
    (split; [cbn; discriminate |]); split.
  - discriminate.
  - intros d' Hd. injection Hd as <-. split; [reflexivity |].
    intros e He. rewrite Hprobe in He. discriminate.
  - discriminate.
  - intros d' Hd. injection Hd as <-. split; reflexivity.
  - intros _. repeat split.
  - discriminate.
Qed.

(** ** More on the regime snapshot *)

(** X12: the regime named by the snapshot is one of the four keys of
    the probabilities and carries the largest probability, strictly
    above the three others; every probability lies between 0 and 1. *)
Theorem regime_now_names_most_probable (today_iso : str) :
  let r := regime_now today_iso in
  exists top,
    dict_get (probabilities r) (regime r) = Some top /\
    forall k p, In (k, p) (probabilities r) ->
      fraction p /\
      (k = regime r \/ PrimFloat.ltb p top = true).
Proof.
  cbv zeta. eexists. split; [reflexivity |].
  intros k p Hin. cbn in Hin.
  repeat (destruct Hin as [Hin | Hin];
          [injection Hin as <- <-; split; [split; reflexivity |];
           (left; reflexivity) || (right; reflexivity) |]).
  contradiction.
Qed.

(** X13: the allocation returned by the stress test is normalised:
    for every request its five weights sum to exactly 1.0, under the
    plain and under the compensated summation. *)
Theorem stress_test_weights_normalised :
  forall create_document req,
    exists r,
      stress_test create_document req = Ret r /\
      Py.sum (values (weights r)) = 1%float /\
      sum_compensated (values (weights r)) = 1%float.
Proof.
  intros cd req. eexists. split; [apply stress_test_returns |].
  split; reflexivity.
Qed.
